(** * oracle-mcp: the search-toggle probe, the session command and the
      browser query tool

    A shallow embedding of

    - [src/browser/actions/searchToggle.ts]: the script that
      [buildSearchToggleExpression] injects into the page, and
      [ensureSearchEnabled], which reads the value the script returns;
    - the [session] command handler, [handleSessionCommand];
    - the handler of the [oracle.browserQuery] tool.

    JavaScript strings are sequences of UTF-16 code units.  The page is
    seen through the five DOM operations the script uses, each of which
    either returns or throws.  Code that is written against callbacks
    ([Runtime.evaluate], the logger, the session command's dependencies)
    takes them as arguments here as well. *)

From Stdlib Require Import NArith ZArith List Ascii String DecimalString Lia.
From stdpp Require Import base decidable list gmap.
Import ListNotations.

(** ** JavaScript strings *)

Module JsString.

(** A string is its list of UTF-16 code units. *)
Definition jsstring : Type := list N.

(** A literal of the source, which only has Basic Latin literals. *)
Definition js (s : string) : jsstring := map N_of_ascii (list_ascii_of_string s).

(** [String.prototype.toLowerCase] follows the Unicode case tables, which
    are not reproduced here: the development is parametric in it. *)
Class CaseMapping := toLowerCase : jsstring -> jsstring.

(** The character class [[a-z0-9]]. *)
Definition isAlnum (c : N) : bool :=
  ((97 <=? c) && (c <=? 122) || (48 <=? c) && (c <=? 57))%N.

(** The class [\s], which is also what [trim] strips: WhiteSpace and
    LineTerminator of ECMA-262. *)
Definition isWhiteSpace (c : N) : bool :=
  ((9 <=? c) && (c <=? 13) || (c =? 32) || (c =? 160) || (c =? 5760)
   || (8192 <=? c) && (c <=? 8202) || (c =? 8232) || (c =? 8233)
   || (c =? 8239) || (c =? 8287) || (c =? 12288) || (c =? 65279))%N.

Definition SPACE : N := 32%N.

(** The double quote, for literals that contain one. *)
Definition QUOTE : list N := [34%N].

(** [s.replace(/C+/g, ' ')] for a character class [C]: every maximal run of
    code units in the class becomes one space.  [inRun] tells whether the
    previous code unit was in the class. *)
Fixpoint replaceRuns (inClass : N -> bool) (inRun : bool) (s : jsstring) : jsstring :=
  match s with
  | [] => []
  | c :: rest =>
      if inClass c
      then if inRun then replaceRuns inClass true rest
           else SPACE :: replaceRuns inClass true rest
      else c :: replaceRuns inClass false rest
  end.

Definition replaceAllRuns (inClass : N -> bool) (s : jsstring) : jsstring :=
  replaceRuns inClass false s.

Fixpoint trimStart (s : jsstring) : jsstring :=
  match s with
  | [] => []
  | c :: rest => if isWhiteSpace c then trimStart rest else s
  end.

Fixpoint trimEnd (s : jsstring) : jsstring :=
  match s with
  | [] => []
  | c :: rest =>
      match trimEnd rest with
      | [] => if isWhiteSpace c then [] else [c]
      | kept => c :: kept
      end
  end.

(** [String.prototype.trim]. *)
Definition trim (s : jsstring) : jsstring := trimEnd (trimStart s).

Fixpoint startsWith (s search : jsstring) {struct search} : bool :=
  match search, s with
  | [], _ => true
  | _ :: _, [] => false
  | k :: search', c :: s' => (k =? c)%N && startsWith s' search'
  end.

(** [String.prototype.includes]: is [search] a substring of [s]. *)
Fixpoint includes (s search : jsstring) : bool :=
  startsWith s search ||
  match s with
  | [] => false
  | _ :: s' => includes s' search
  end.

(** [a === b] on strings. *)
Definition strictEq (a b : jsstring) : bool := bool_decide (a = b).

(** Truthiness of a string: only the empty string is falsy. *)
Definition truthy (s : jsstring) : bool :=
  match s with [] => false | _ :: _ => true end.

(** [value || fallback] where [value] is a string or [null]. *)
Definition orElse (value : option jsstring) (fallback : jsstring) : jsstring :=
  match value with
  | Some s => if truthy s then s else fallback
  | None => fallback
  end.

(** [a || b] on two strings. *)
Definition orString (a b : jsstring) : jsstring := if truthy a then a else b.

(** Lower-casing on Basic Latin alone: [A-Z] go to [a-z], every other code
    unit stays.  It agrees with [toLowerCase] on strings of Basic Latin and
    is the case mapping the examples are run with. *)
Definition asciiLowerUnit (c : N) : N :=
  if ((65 <=? c) && (c <=? 90))%N then (c + 32)%N else c.

Definition asciiLowerCase : CaseMapping := map asciiLowerUnit.

(** *** Values *)

(** A number, as far as this code looks at one: whether it is falsy ([0],
    [-0] or [NaN]) and how it prints. *)
Record JsNumber : Type := {
  numberIsFalsy : bool;
  numberText : jsstring
}.

(** Plain data, which is what [returnByValue] delivers: the value is parsed
    from JSON, so that an object has its own properties and nothing else
    of its own. *)
#[warnings="-register-all"] Inductive JsValue : Type :=
| VUndefined
| VNull
| VBool (b : bool)
| VNumber (n : JsNumber)
| VString (s : jsstring)
| VArray (items : list JsValue)
| VObject (props : list (jsstring * JsValue)).

(** Truthiness, as in [if (result.label)]. *)
Definition ToBoolean (v : JsValue) : bool :=
  match v with
  | VUndefined | VNull => false
  | VBool b => b
  | VNumber n => negb (numberIsFalsy n)
  | VString s => truthy s
  | VArray _ | VObject _ => true
  end.

(** *** Exceptions *)

(** A thrown value, as far as the [catch] clause of the script looks at
    it, which evaluates
    [error instanceof Error ? error.message : String(error)]:
    - an [Error] whose [message] is a string;
    - an [Error] whose [message] is some other value;
    - anything else, with the string that [String(error)] makes of it;
    - a value on which that expression itself throws, for instance
      [Object.create(null)], which [String] cannot convert: [raised] is
      what is thrown then. *)
Inductive Thrown : Type :=
| ThrownError (message : jsstring)
| ThrownErrorWith (message : JsValue)
| ThrownValue (text : jsstring)
| ThrownUnconvertible (raised : Thrown).

(** How a call ends: it returns a value or it throws. *)
Inductive Completion (A : Type) : Type :=
| Normal (a : A)
| Throw (e : Thrown).
Arguments Normal {A} a.
Arguments Throw {A} e.

Definition bindCompletion {A B} (c : Completion A) (k : A -> Completion B)
  : Completion B :=
  match c with
  | Normal a => k a
  | Throw e => Throw e
  end.

Declare Scope completion_scope.
Delimit Scope completion_scope with completion.
Notation "x <- c ;; k" := (bindCompletion c (fun x => k))
  (at level 100, c at next level, right associativity) : completion_scope.

(** *** Strings out of values *)

Fixpoint joinWith (sep : jsstring) (parts : list jsstring) : jsstring :=
  match parts with
  | [] => []
  | [part] => part
  | part :: rest => part ++ sep ++ joinWith sep rest
  end.

Fixpoint hasOwnProperty (props : list (jsstring * JsValue)) (name : jsstring) : bool :=
  match props with
  | [] => false
  | (key, _) :: rest => strictEq key name || hasOwnProperty rest name
  end.

(** The [TypeError] of a conversion that finds no primitive. *)
Definition cannotConvert : Thrown :=
  ThrownError (js "Cannot convert object to primitive value").

(** The string a template literal puts in for [${v}].  An array is joined
    with commas, [null] and [undefined] elements giving nothing.  An object
    of plain data goes through [toString] and then [valueOf]: with no
    [toString] of its own it inherits the one that answers
    [[object Object]]; with one of its own, which plain data cannot make
    callable, only [valueOf] is left, which gives no primitive, and the
    conversion throws. *)
Fixpoint ToString (v : JsValue) : Completion jsstring :=
  match v with
  | VUndefined => Normal (js "undefined")
  | VNull => Normal (js "null")
  | VBool true => Normal (js "true")
  | VBool false => Normal (js "false")
  | VNumber n => Normal (numberText n)
  | VString s => Normal s
  | VArray items =>
      (fix join (items : list JsValue) : Completion jsstring :=
         match items with
         | [] => Normal []
         | item :: rest =>
             (first <- match item with
                       | VUndefined | VNull => Normal []
                       | _ => ToString item
                       end ;;
              match rest with
              | [] => Normal first
              | _ :: _ =>
                  others <- join rest ;;
                  Normal (first ++ js "," ++ others)
              end)%completion
         end) items
  | VObject props =>
      if hasOwnProperty props (js "toString") then Throw cannotConvert
      else Normal (js "[object Object]")
  end.

Fixpoint lookupProperty (props : list (jsstring * JsValue)) (name : jsstring)
  : JsValue :=
  match props with
  | [] => VUndefined
  | (key, v) :: rest =>
      if strictEq key name then v else lookupProperty rest name
  end.

(** [v?.name] for the names read here ([status], [label], [message]), which
    only an object can have; [v.name] where [v] is known to be an object. *)
Definition getProperty (v : JsValue) (name : jsstring) : JsValue :=
  match v with
  | VObject props => lookupProperty props name
  | _ => VUndefined
  end.

(** [v === 'literal']. *)
Definition isString (v : JsValue) (literal : jsstring) : bool :=
  match v with
  | VString s => strictEq s literal
  | _ => false
  end.

End JsString.

Export JsString.

(** ** The search toggle: [src/browser/actions/searchToggle.ts] *)

Module SearchToggle.

(** *** The page *)

(** An element is known by its identity; everything else about it is asked
    from the page. *)
Definition Node : Type := nat.

(** The page as the script sees it.  Reading is a function of the page: the
    script runs to completion without yielding, and only its final [click]
    changes anything. *)
Record Dom : Type := {
  querySelectorAll : jsstring -> Completion (list Node);
  instanceofHTMLElement : Node -> bool;
  textContent : Node -> Completion (option jsstring);
  getAttribute : Node -> jsstring -> Completion (option jsstring);
  click : Node -> Completion unit
}.

(** The script: it may throw, and it leaves behind the elements it called
    [click()] on, oldest first. *)
Definition Script (A : Type) : Type := list Node -> Completion A * list Node.

Definition ret {A} (a : A) : Script A := fun clicks => (Normal a, clicks).

Definition bind {A B} (m : Script A) (k : A -> Script B) : Script B :=
  fun clicks =>
    match m clicks with
    | (Normal a, clicks') => k a clicks'
    | (Throw e, clicks') => (Throw e, clicks')
    end.

(** A read of the page inside the script. *)
Definition read {A} (c : Completion A) : Script A := fun clicks => (c, clicks).

(** [try { body } catch (error) { handler }]. *)
Definition tryCatch {A} (body : Script A) (handler : Thrown -> Script A) : Script A :=
  fun clicks =>
    match body clicks with
    | (Normal a, clicks') => (Normal a, clicks')
    | (Throw e, clicks') => handler e clicks'
    end.

(** [el.click()]: the call is recorded whether or not it returns. *)
Definition clickElement (dom : Dom) (el : Node) : Script unit :=
  fun clicks => (click dom el, clicks ++ [el]).

Declare Scope script_scope.
Delimit Scope script_scope with script.
Notation "x <- c ;; k" := (bind c (fun x => k))
  (at level 100, c at next level, right associativity) : script_scope.

(** *** The result type *)

(** [message] is declared a string; it holds what the [catch] clause of
    the script extracts from the thrown value, which [errorMessage] below
    gives. *)
Inductive SearchToggleResult : Type :=
| AlreadyOn (label : option jsstring)
| ToggledOn (label : option jsstring)
| NotFound
| Error (message : JsValue).

Definition status (r : SearchToggleResult) : jsstring :=
  match r with
  | AlreadyOn _ => js "already-on"
  | ToggledOn _ => js "toggled-on"
  | NotFound => js "not-found"
  | Error _ => js "error"
  end.

(** *** The injected script *)

Definition KEYWORDS : list jsstring :=
  [js "search"; js "web search"; js "browse"; js "browsing"].

Definition SELECTORS : list jsstring :=
  [js "button";
   js "[role=" ++ QUOTE ++ js "switch" ++ QUOTE ++ js "]";
   js "[data-testid]";
   js "[aria-pressed]";
   js "[aria-checked]"].

Definition ON_STATES : list jsstring :=
  [js "on"; js "true"; js "checked"; js "selected"; js "active"].

Section Probe.
Context {lower : CaseMapping}.

Definition normalizeText (value : jsstring) : jsstring :=
  if negb (truthy value) then []
  else trim
         (replaceAllRuns isWhiteSpace
            (replaceAllRuns (fun c => negb (isAlnum c)) (toLowerCase value))).

(** [attr === 'true'] for the string or [null] that [getAttribute] gives. *)
Definition isTrueAttribute (attr : option jsstring) : bool :=
  match attr with
  | Some s => strictEq s (js "true")
  | None => false
  end.

Definition isOn (dom : Dom) (el : Node) : Completion bool :=
  (if negb (instanceofHTMLElement dom el) then Normal false
   else
     ariaPressed <- getAttribute dom el (js "aria-pressed") ;;
     ariaChecked <- getAttribute dom el (js "aria-checked") ;;
     dataStateAttr <- getAttribute dom el (js "data-state") ;;
     let dataState := toLowerCase (orElse dataStateAttr []) in
     if isTrueAttribute ariaPressed || isTrueAttribute ariaChecked then Normal true
     else if existsb (strictEq dataState) ON_STATES then Normal true
     else Normal false)%completion.

Definition getLabel (dom : Dom) (el : Node) : Completion jsstring :=
  (if negb (instanceofHTMLElement dom el) then Normal []
   else
     ariaLabelAttr <- getAttribute dom el (js "aria-label") ;;
     testIdAttr <- getAttribute dom el (js "data-testid") ;;
     textValue <- textContent dom el ;;
     let ariaLabel := orElse ariaLabelAttr [] in
     let testId := orElse testIdAttr [] in
     let text := orElse textValue [] in
     let best := orString (orString ariaLabel text) testId in
     Normal (trim best))%completion.

(** [candidates.add(el)] on a [Set], which keeps insertion order and holds
    an element once. *)
Definition setAdd (candidates : list Node) (el : Node) : list Node :=
  if existsb (Nat.eqb el) candidates then candidates else candidates ++ [el].

(** The loop over [SELECTORS] that fills [candidates]. *)
Fixpoint collectCandidates (dom : Dom) (selectors : list jsstring)
    (candidates : list Node) : Completion (list Node) :=
  match selectors with
  | [] => Normal candidates
  | selector :: rest =>
      (found <- querySelectorAll dom selector ;;
       collectCandidates dom rest (fold_left setAdd found candidates))%completion
  end.

(** The text a candidate is matched on. *)
Definition haystackOf (dom : Dom) (node : Node) : Completion jsstring :=
  (textValue <- textContent dom node ;;
   let text := normalizeText (orElse textValue []) in
   ariaLabelAttr <- getAttribute dom node (js "aria-label") ;;
   let ariaLabel := normalizeText (orElse ariaLabelAttr []) in
   testIdAttr <- getAttribute dom node (js "data-testid") ;;
   let testId := normalizeText (orElse testIdAttr []) in
   Normal (text ++ js " " ++ ariaLabel ++ js " " ++ testId))%completion.

Definition matchesKeywords (haystack : jsstring) : bool :=
  existsb (fun kw => includes haystack (normalizeText kw)) KEYWORDS.

(** The loop over [candidates] that sets [best]. *)
Fixpoint findBest (dom : Dom) (candidates : list Node) : Completion (option Node) :=
  match candidates with
  | [] => Normal None
  | node :: rest =>
      if negb (instanceofHTMLElement dom node) then findBest dom rest
      else
        (haystack <- haystackOf dom node ;;
         if negb (truthy haystack) then findBest dom rest
         else if matchesKeywords haystack then Normal (Some node)
         else findBest dom rest)%completion
  end.

(** The body of the [try] block. *)
Definition probe (dom : Dom) : Script SearchToggleResult :=
  (candidates <- read (collectCandidates dom SELECTORS []) ;;
   best <- read (findBest dom candidates) ;;
   match best with
   | None => ret NotFound
   | Some best =>
       label <- read (getLabel dom best) ;;
       on <- read (isOn dom best) ;;
       if on then ret (AlreadyOn (Some label))
       else
         _ <- clickElement dom best ;;
         ret (ToggledOn (Some label))
   end)%script.

(** [error instanceof Error ? error.message : String(error)], which gives
    a value, a string in all but one case, or throws. *)
Definition errorMessage (error : Thrown) : Completion JsValue :=
  match error with
  | ThrownError message => Normal (VString message)
  | ThrownErrorWith message => Normal message
  | ThrownValue text => Normal (VString text)
  | ThrownUnconvertible raised => Throw raised
  end.

(** The script that [buildSearchToggleExpression] returns.  What the
    [catch] clause throws is thrown by the script. *)
Definition buildSearchToggleExpression (dom : Dom) : Script SearchToggleResult :=
  tryCatch (probe dom)
    (fun error =>
       (message <- read (errorMessage error) ;;
        ret (Error message))%script).

(** One evaluation of the script in a page: the value that crosses the
    protocol and the clicks that were made. *)
Definition evaluateProbe (dom : Dom) : Completion SearchToggleResult * list Node :=
  buildSearchToggleExpression dom [].

End Probe.

(** *** Values that come back over the protocol *)

(** The object the script returns, as it arrives by value. *)
Definition labelProperty (label : option jsstring) : list (jsstring * JsValue) :=
  match label with
  | Some l => [(js "label", VString l)]
  | None => []
  end.

Definition toValue (r : SearchToggleResult) : JsValue :=
  match r with
  | AlreadyOn label => VObject ((js "status", VString (js "already-on")) :: labelProperty label)
  | ToggledOn label => VObject ((js "status", VString (js "toggled-on")) :: labelProperty label)
  | NotFound => VObject [(js "status", VString (js "not-found"))]
  | Error message =>
      VObject [(js "status", VString (js "error")); (js "message", message)]
  end.

(** *** [ensureSearchEnabled] *)

Record EvaluateParams : Type := {
  expression : Dom -> Script SearchToggleResult;
  awaitPromise : bool;
  returnByValue : bool
}.

(** [outcome.result?.value]: the [result] may be missing and so may its
    [value], which is then [undefined]. *)
Record RemoteObject : Type := { value : JsValue }.
Record EvaluateResponse : Type := { result : option RemoteObject }.

(** [outcome.result?.value]. *)
Definition resultValue (outcome : EvaluateResponse) : JsValue :=
  match result outcome with
  | Some remote => value remote
  | None => VUndefined
  end.

(** What a run leaves: how it ended and the lines given to [logger]. *)
Definition Logged (A : Type) : Type := Completion A * list jsstring.

Definition logger (message : jsstring) : Logged unit := (Normal tt, [message]).

(** [logger(`...${v}...`)]: the template literal is evaluated first, and
    when the conversion of [v] throws nothing is logged. *)
Definition logTemplate (converted : Completion jsstring)
    (template : jsstring -> jsstring) : Logged unit :=
  match converted with
  | Normal text => logger (template text)
  | Throw e => (Throw e, [])
  end.

Section EnsureSearchEnabled.
Context {lower : CaseMapping}.

(** The argument of [Runtime.evaluate]. *)
Definition probeParams : EvaluateParams :=
  {| expression := buildSearchToggleExpression;
     awaitPromise := false;
     returnByValue := true |}.

Definition ensureSearchEnabled
    (evaluate : EvaluateParams -> Completion EvaluateResponse) : Logged unit :=
  match evaluate probeParams with
  | Throw e => (Throw e, [])
  | Normal outcome =>
      let result := resultValue outcome in
      let status := getProperty result (js "status") in
      if isString status (js "already-on") then
        let label := getProperty result (js "label") in
        if ToBoolean label
        then logTemplate (ToString label)
               (fun text => js "Search toggle already on (" ++ text ++ js ").")
        else logger (js "Search toggle already on.")
      else if isString status (js "toggled-on") then
        let label := getProperty result (js "label") in
        if ToBoolean label
        then logTemplate (ToString label)
               (fun text => js "Search toggle enabled (" ++ text ++ js ").")
        else logger (js "Search toggle enabled.")
      else if isString status (js "not-found") then
        logger (js "Search toggle not found in ChatGPT UI; continuing without forcing search.")
      else
        let message := getProperty result (js "message") in
        if ToBoolean message
        then logTemplate (ToString message)
               (fun text => js "Search toggle error: " ++ text
                              ++ js "; continuing without forcing search.")
        else logger (js "Search toggle error; continuing without forcing search.")
  end.

End EnsureSearchEnabled.

(** *** The vocabulary of the properties *)

Section Vocabulary.
Context {lower : CaseMapping}.

(** The one fact about [toLowerCase] that is used: a string of lower-case
    Basic Latin letters, digits and spaces has nothing to lower. *)
Definition LowerCaseKeepsPlain : Prop :=
  forall s : jsstring,
    Forall (fun c => isAlnum c = true \/ c = SPACE) s -> toLowerCase s = s.

(** [k] occurs in [h]. *)
Definition substring (k h : jsstring) : Prop :=
  exists before after : jsstring, h = before ++ k ++ after.

Definition containsKeyword (h : jsstring) : Prop :=
  exists kw, In kw KEYWORDS /\ substring kw h.

(** The candidate set of a page. *)
Definition candidatesOf (dom : Dom) (candidates : list Node) : Prop :=
  collectCandidates dom SELECTORS [] = Normal candidates.

(** The element has a haystack and a keyword occurs in it. *)
Definition keywordMatching (dom : Dom) (node : Node) : Prop :=
  exists h, haystackOf dom node = Normal h /\ containsKeyword h.

(** The element has a haystack and no keyword occurs in it. *)
Definition keywordFree (dom : Dom) (node : Node) : Prop :=
  exists h, haystackOf dom node = Normal h /\ ~ containsKeyword h.

(** The loop passes over the element: it is not an [HTMLElement], or no
    keyword occurs in its haystack. *)
Definition passedOver (dom : Dom) (node : Node) : Prop :=
  instanceofHTMLElement dom node = false \/ keywordFree dom node.

(** [b] is the first candidate in which a keyword occurs. *)
Definition firstKeywordCandidate (dom : Dom) (b : Node) : Prop :=
  exists candidates before after,
    candidatesOf dom candidates /\ candidates = before ++ b :: after /\
    (forall c, In c before -> keywordFree dom c) /\
    keywordMatching dom b.

(** [b] is the first candidate that is an [HTMLElement] and in which a
    keyword occurs. *)
Definition firstMatchingHTMLElement (dom : Dom) (b : Node) : Prop :=
  exists candidates before after,
    candidatesOf dom candidates /\ candidates = before ++ b :: after /\
    (forall c, In c before -> passedOver dom c) /\
    instanceofHTMLElement dom b = true /\
    keywordMatching dom b.


(** The three attributes the state is read from. *)
Definition stateAttributes (dom : Dom) (el : Node)
    (pressed checked state : option jsstring) : Prop :=
  getAttribute dom el (js "aria-pressed") = Normal pressed /\
  getAttribute dom el (js "aria-checked") = Normal checked /\
  getAttribute dom el (js "data-state") = Normal state.

Definition activeState (state : option jsstring) : Prop :=
  exists s, state = Some s /\ In (toLowerCase s) ON_STATES.

Definition onState (dom : Dom) (el : Node) : Prop :=
  exists pressed checked state,
    stateAttributes dom el pressed checked state /\
    (pressed = Some (js "true") \/ checked = Some (js "true") \/ activeState state).

Definition offState (dom : Dom) (el : Node) : Prop :=
  exists pressed checked state,
    stateAttributes dom el pressed checked state /\
    pressed <> Some (js "true") /\ checked <> Some (js "true") /\
    ~ activeState state.

(** The element's [aria-label], text content and [data-testid], each the
    empty string when missing. *)
Definition labelSources (dom : Dom) (el : Node)
    (ariaLabel text testId : jsstring) : Prop :=
  exists a t d,
    getAttribute dom el (js "aria-label") = Normal a /\
    textContent dom el = Normal t /\
    getAttribute dom el (js "data-testid") = Normal d /\
    ariaLabel = orElse a [] /\ text = orElse t [] /\ testId = orElse d [].

(** The first non-empty string of a list, or the empty string. *)
Fixpoint firstNonEmpty (choices : list jsstring) : jsstring :=
  match choices with
  | [] => []
  | s :: rest => if truthy s then s else firstNonEmpty rest
  end.

(** A list with each element kept where it first occurs. *)
Fixpoint firstOccurrences (l : list Node) : list Node :=
  match l with
  | [] => []
  | x :: rest =>
      x :: List.filter (fun y => negb (Nat.eqb y x)) (firstOccurrences rest)
  end.

(** The candidates in query order: what the selectors find, one selector
    after the other and each result in the order the page gives it, every
    element kept where it first occurs. *)
Definition inQueryOrder (dom : Dom) (candidates : list Node) : Prop :=
  exists results : list (list Node),
    Forall2 (fun selector found => querySelectorAll dom selector = Normal found)
            SELECTORS results /\
    candidates = firstOccurrences (concat results).

(** [y] is not in [seen]. *)
Definition unseen (seen : list Node) (y : Node) : bool :=
  negb (existsb (Nat.eqb y) seen).

(** The element the selection loop ends on. *)
Definition selectsBest (dom : Dom) (b : Node) : Prop :=
  exists candidates,
    candidatesOf dom candidates /\ findBest dom candidates = Normal (Some b).

(** An on-state on the first keyword candidate gives [already-on] and no
    click on it. *)
Definition AlreadyOnAtFirstKeywordCandidate (dom : Dom) : Prop :=
  forall b,
    firstKeywordCandidate dom b -> onState dom b ->
    exists label clicks,
      evaluateProbe dom = (Normal (AlreadyOn label), clicks) /\ ~ In b clicks.

(** The loop ends on the first keyword candidate. *)
Definition SelectsFirstKeywordCandidate (dom : Dom) : Prop :=
  forall b, firstKeywordCandidate dom b -> selectsBest dom b.


(** A string in the form [normalizeText] leaves: letters, digits and single
    spaces.  [afterSpace] tells whether a space came just before. *)
Fixpoint tidy (afterSpace : bool) (s : jsstring) : bool :=
  match s with
  | [] => true
  | c :: rest =>
      if (c =? SPACE)%N then negb afterSpace && tidy true rest
      else isAlnum c && tidy false rest
  end.

(** No white space in front. *)
Definition startsClean (s : jsstring) : Prop :=
  match s with
  | [] => True
  | c :: _ => isWhiteSpace c = false
  end.



(** What the [catch] clause makes of a thrown value: the [error] variant,
    or a throw of its own. *)
Definition caught (e : Thrown) : Completion SearchToggleResult :=
  match errorMessage e with
  | Normal message => Normal (Error message)
  | Throw raised => Throw raised
  end.



End Vocabulary.

(** *** A page given by its elements *)

(** A document written out as the list of its elements in tree order, for
    running the script: an element is its tag, whether it is an
    [HTMLElement] (an [<svg>] is not), its text and its attributes. *)
Record ElementData : Type := {
  isHTMLElement : bool;
  tagName : jsstring;
  innerText : jsstring;
  attributes : list (jsstring * jsstring)
}.

Fixpoint attributeOf (attrs : list (jsstring * jsstring)) (name : jsstring)
  : option jsstring :=
  match attrs with
  | [] => None
  | (key, value) :: rest =>
      if strictEq key name then Some value else attributeOf rest name
  end.

Definition hasAttribute (e : ElementData) (name : jsstring) : bool :=
  match attributeOf (attributes e) name with Some _ => true | None => false end.

(** Which elements each entry of [SELECTORS] selects. *)
Definition selectorMatches (selector : jsstring) (e : ElementData) : bool :=
  if strictEq selector (js "button") then strictEq (tagName e) (js "button")
  else if strictEq selector (js "[role=" ++ QUOTE ++ js "switch" ++ QUOTE ++ js "]")
  then match attributeOf (attributes e) (js "role") with
       | Some role => strictEq role (js "switch")
       | None => false
       end
  else if strictEq selector (js "[data-testid]") then hasAttribute e (js "data-testid")
  else if strictEq selector (js "[aria-pressed]") then hasAttribute e (js "aria-pressed")
  else if strictEq selector (js "[aria-checked]") then hasAttribute e (js "aria-checked")
  else false.

Fixpoint selectFrom (selector : jsstring) (first : Node) (elements : list ElementData)
  : list Node :=
  match elements with
  | [] => []
  | e :: rest =>
      if selectorMatches selector e then first :: selectFrom selector (S first) rest
      else selectFrom selector (S first) rest
  end.

(** The page of a document: nothing throws, and the nodes are the positions
    in the document. *)
Definition staticDom (elements : list ElementData) : Dom := {|
  querySelectorAll selector := Normal (selectFrom selector 0 elements);
  instanceofHTMLElement node :=
    match nth_error elements node with
    | Some e => isHTMLElement e
    | None => false
    end;
  textContent node :=
    Normal (match nth_error elements node with
            | Some e => Some (innerText e)
            | None => None
            end);
  getAttribute node name :=
    Normal (match nth_error elements node with
            | Some e => attributeOf (attributes e) name
            | None => None
            end);
  click _ := Normal tt
|}.

(** [<svg data-testid="search-icon" aria-pressed="true">] alone. *)
Definition svgToggleDocument : list ElementData :=
  [ {| isHTMLElement := false; tagName := js "svg"; innerText := [];
       attributes := [(js "data-testid", js "search-icon");
                      (js "aria-pressed", js "true")] |} ].


(** [<button data-testid="search-button"> </button>]: an icon button whose
    only text is white space. *)
Definition iconButtonDocument : list ElementData :=
  [ {| isHTMLElement := true; tagName := js "button"; innerText := js " ";
       attributes := [(js "data-testid", js "search-button")] |} ].

(** [<div data-testid="composer">Message</div>
     <button aria-label="Search the web" aria-pressed="true">Search</button>]. *)
Definition pressedDocument : list ElementData :=
  [ {| isHTMLElement := true; tagName := js "div"; innerText := js "Message";
       attributes := [(js "data-testid", js "composer")] |};
    {| isHTMLElement := true; tagName := js "button"; innerText := js "Search";
       attributes := [(js "aria-label", js "Search the web");
                      (js "aria-pressed", js "true")] |} ].

(** [<button>Send</button> <div role="switch" data-state="unchecked">Web
    search</div>]. *)
Definition switchOffDocument : list ElementData :=
  [ {| isHTMLElement := true; tagName := js "button"; innerText := js "Send";
       attributes := [] |};
    {| isHTMLElement := true; tagName := js "div"; innerText := js "Web search";
       attributes := [(js "role", js "switch");
                      (js "data-state", js "unchecked")] |} ].

(** [<button>Send</button> <button data-testid="attach">Attach</button>]. *)
Definition plainDocument : list ElementData :=
  [ {| isHTMLElement := true; tagName := js "button"; innerText := js "Send";
       attributes := [] |};
    {| isHTMLElement := true; tagName := js "button"; innerText := js "Attach";
       attributes := [(js "data-testid", js "attach")] |} ].

(** A page that has gone away: every query throws. *)
Definition detachedDom : Dom := {|
  querySelectorAll _ := Throw (ThrownError (js "Execution context was destroyed."));
  instanceofHTMLElement _ := false;
  textContent _ := Normal None;
  getAttribute _ _ := Normal None;
  click _ := Normal tt
|}.

(** The page of [switchOffDocument], but [click()] throws something that
    is not an [Error]. *)
Definition blockedClickDom : Dom := {|
  querySelectorAll := querySelectorAll (staticDom switchOffDocument);
  instanceofHTMLElement := instanceofHTMLElement (staticDom switchOffDocument);
  textContent := textContent (staticDom switchOffDocument);
  getAttribute := getAttribute (staticDom switchOffDocument);
  click _ := Throw (ThrownValue (js "blocked"))
|}.

End SearchToggle.

(** ** The session store *)

Module SessionManager.

(** A stored session, with the fields the specification lists.  Times are
    milliseconds since the epoch. *)
Record BrowserSession : Type := {
  sessionId : jsstring;
  endpoint : jsstring;
  createdAt : Z;
  lastUsedAt : Z;
  profileName : jsstring
}.

Record DeleteOptions : Type := {
  hours : Z;
  includeAll : bool
}.

Record DeleteResult : Type := { deleted : Z }.

Definition MS_PER_HOUR : Z := 3600000.

(** A session is older than [h] hours at time [now] when it was last used
    more than [h] hours before [now]. *)
Definition olderThan (now h : Z) (s : BrowserSession) : Prop :=
  (lastUsedAt s + h * MS_PER_HOUR < now)%Z.

#[global] Instance olderThan_dec now h s : Decision (olderThan now h s).
Proof. unfold olderThan. apply _. Defined.

Definition expired (now : Z) (options : DeleteOptions)
    (entry : jsstring * BrowserSession) : Prop :=
  includeAll options = true ∨ olderThan now (hours options) entry.2.

#[global] Instance expired_dec now options entry : Decision (expired now options entry).
Proof. unfold expired, olderThan. apply _. Defined.

(** Modelled from the spec: [deleteSessionsOlderThan] of [sessionManager.js].
    Only its call in [handleSessionCommand] is in the sources.  By the
    specification it removes the persisted session descriptors whose
    [lastUsedAt] exceeds the age threshold, or all of them if [includeAll],
    and returns a count; the store is keyed by session id. *)
Definition deleteSessionsOlderThan (now : Z) (options : DeleteOptions)
    (store : gmap jsstring BrowserSession)
  : DeleteResult * gmap jsstring BrowserSession :=
  let removed := filter (expired now options) store in
  ({| deleted := Z.of_nat (size removed) |},
   filter (fun entry => ¬ expired now options entry) store).

(** The store of the specification's scenario: at time [now], one session
    last used 48 hours ago and one last used an hour ago. *)
Definition staleSession (now : Z) : BrowserSession :=
  {| sessionId := js "stale"; endpoint := js "ws://127.0.0.1:9222";
     createdAt := (now - 72 * MS_PER_HOUR)%Z;
     lastUsedAt := (now - 48 * MS_PER_HOUR)%Z; profileName := js "Default" |}.

Definition recentSession (now : Z) : BrowserSession :=
  {| sessionId := js "recent"; endpoint := js "ws://127.0.0.1:9223";
     createdAt := (now - 2 * MS_PER_HOUR)%Z;
     lastUsedAt := (now - 1 * MS_PER_HOUR)%Z; profileName := js "Default" |}.

Definition scenarioStore (now : Z) : gmap jsstring BrowserSession :=
  <[js "stale" := staleSession now]> (<[js "recent" := recentSession now]> ∅).

End SessionManager.

(** ** The [session] command *)

Module SessionCommand.

(** The options of the command line; [hours] and [limit] are taken as
    whole numbers. *)
Record StatusOptions : Type := {
  hours : Z;
  limit : Z;
  all : bool;
  clear : option bool;
  clean : option bool
}.

(** [hours] as [showStatus] takes it: a number or [Infinity]. *)
Inductive HoursWindow : Type :=
| Hours (h : Z)
| Infinity.

Record ShowStatusOptions : Type := {
  showHours : HoursWindow;
  showIncludeAll : bool;
  showLimit : Z;
  showExamples : bool
}.

(** The calls the handler makes on the three dependencies that work on the
    world, in order.  [usesDefaultStatusFilters], which the handler
    consults before it lists, is not among them: it is taken as a
    predicate on the command. *)
Inductive DependencyCall : Type :=
| CallShowStatus (options : ShowStatusOptions)
| CallAttachSession (sessionId : jsstring)
| CallDeleteSessionsOlderThan (options : SessionManager.DeleteOptions).

(** The process around the handler: [world] is whatever the dependencies
    work on (the session store, the terminal); the rest is what the handler
    itself does. *)
Record Process (World : Type) : Type := {
  world : World;
  consoleLog : list jsstring;
  consoleError : list jsstring;
  exitCode : option Z;
  calls : list DependencyCall
}.
Arguments world {World} _.
Arguments consoleLog {World} _.
Arguments consoleError {World} _.
Arguments exitCode {World} _.
Arguments calls {World} _.

(** [Number.MAX_SAFE_INTEGER], which is [2^53 - 1]. *)
Definition MAX_SAFE_INTEGER : Z := 9007199254740991.

(** [Number.isSafeInteger]: a whole number that a double holds exactly,
    and which a template literal prints with all its digits. *)
Definition safeInteger (z : Z) : Prop :=
  (- MAX_SAFE_INTEGER <= z <= MAX_SAFE_INTEGER)%Z.

(** Decimal text of a number, as a template literal prints it.  The numbers
    here are whole numbers, and this is the text JavaScript gives for the
    safe ones.  A fraction, [NaN], an infinity, and a number from [1e21]
    on, which prints with an exponent, are not among them. *)
Definition numberToString (z : Z) : jsstring :=
  js (DecimalString.NilZero.string_of_int (Z.to_int z)).

(** [Boolean(flag)] for an optional flag. *)
Definition isSet (flag : option bool) : bool :=
  match flag with
  | Some true => true
  | _ => false
  end.

(** Truthiness of [sessionId: string | undefined]. *)
Definition hasSessionId (sessionId : option jsstring) : bool :=
  match sessionId with
  | Some s => truthy s
  | None => false
  end.

(** The string in [sessionId], where the code has checked there is one. *)
Definition sessionIdText (sessionId : option jsstring) : jsstring :=
  match sessionId with
  | Some s => s
  | None => []
  end.

Definition sessionIdIs (sessionId : option jsstring) (literal : jsstring) : bool :=
  match sessionId with
  | Some s => strictEq s literal
  | None => false
  end.

Section Handler.
Context {World Command : Type}.
(** [command.opts<StatusOptions>()]. *)
Variable opts : Command -> StatusOptions.

Definition Cmd (A : Type) : Type :=
  Process World -> Completion A * Process World.

Definition pure {A} (a : A) : Cmd A := fun p => (Normal a, p).

Definition andThen {A B} (m : Cmd A) (k : A -> Cmd B) : Cmd B :=
  fun p =>
    match m p with
    | (Normal a, p') => k a p'
    | (Throw e, p') => (Throw e, p')
    end.

Notation "x <- c ;; k" := (andThen c (fun x => k))
  (at level 100, c at next level, right associativity).

Record SessionCommandDependencies : Type := {
  showStatus : ShowStatusOptions -> World -> Completion unit * World;
  attachSession : jsstring -> World -> Completion unit * World;
  usesDefaultStatusFilters : Command -> bool;
  deleteSessionsOlderThan :
    SessionManager.DeleteOptions -> World -> Completion SessionManager.DeleteResult * World
}.

(** A call on a dependency: it is recorded, then it runs on the world. *)
Definition call {A} (what : DependencyCall)
    (run : World -> Completion A * World) : Cmd A :=
  fun p =>
    let (outcome, world') := run (world p) in
    (outcome,
     {| world := world'; consoleLog := consoleLog p;
        consoleError := consoleError p; exitCode := exitCode p;
        calls := calls p ++ [what] |}).

Definition console_error (message : jsstring) : Cmd unit :=
  fun p =>
    (Normal tt,
     {| world := world p; consoleLog := consoleLog p;
        consoleError := consoleError p ++ [message]; exitCode := exitCode p;
        calls := calls p |}).

Definition console_log (message : jsstring) : Cmd unit :=
  fun p =>
    (Normal tt,
     {| world := world p; consoleLog := consoleLog p ++ [message];
        consoleError := consoleError p; exitCode := exitCode p;
        calls := calls p |}).

(** [process.exitCode = code]. *)
Definition setExitCode (code : Z) : Cmd unit :=
  fun p =>
    (Normal tt,
     {| world := world p; consoleLog := consoleLog p;
        consoleError := consoleError p; exitCode := Some code;
        calls := calls p |}).

Definition handleSessionCommand (sessionId : option jsstring) (command : Command)
    (deps : SessionCommandDependencies) : Cmd unit :=
  let sessionOptions := opts command in
  let clearRequested := isSet (clear sessionOptions) || isSet (clean sessionOptions) in
  if clearRequested then
    if hasSessionId sessionId then
      _ <- console_error
             (js "Cannot combine a session ID with --clear. Remove the ID to delete cached sessions.") ;;
      _ <- setExitCode 1 ;;
      pure tt
    else
      let hours := hours sessionOptions in
      let includeAll := all sessionOptions in
      let options :=
        {| SessionManager.hours := hours; SessionManager.includeAll := includeAll |} in
      result <- call (CallDeleteSessionsOlderThan options)
                     (deleteSessionsOlderThan deps options) ;;
      let scope :=
        if includeAll then js "all stored sessions"
        else js "sessions older than " ++ numberToString hours ++ js "h" in
      let deleted := SessionManager.deleted result in
      _ <- console_log
             (js "Deleted " ++ numberToString deleted ++ js " "
                ++ (if (deleted =? 1)%Z then js "session" else js "sessions")
                ++ js " (" ++ scope ++ js ").") ;;
      pure tt
  else if sessionIdIs sessionId (js "clear") || sessionIdIs sessionId (js "clean") then
    _ <- console_error
           (js "Session cleanup now uses --clear. Run " ++ QUOTE
              ++ js "oracle session --clear --hours <n>" ++ QUOTE ++ js " instead.") ;;
    _ <- setExitCode 1 ;;
    pure tt
  else if negb (hasSessionId sessionId) then
    let showExamples := usesDefaultStatusFilters deps command in
    let options :=
      {| showHours := if all sessionOptions then Infinity
                      else Hours (hours sessionOptions);
         showIncludeAll := all sessionOptions;
         showLimit := limit sessionOptions;
         showExamples := showExamples |} in
    call (CallShowStatus options) (showStatus deps options)
  else
    let id := sessionIdText sessionId in
    call (CallAttachSession id) (attachSession deps id).

End Handler.

(** [oracle session abc123 --clear --hours 24], with dependencies that do
    nothing, on a process that has done nothing yet. *)
Definition clearOptions : StatusOptions :=
  {| hours := 24; limit := 10; all := false; clear := Some true; clean := None |}.

Definition idleDependencies : @SessionCommandDependencies unit StatusOptions := {|
  showStatus _ w := (Normal tt, w);
  attachSession _ w := (Normal tt, w);
  usesDefaultStatusFilters _ := true;
  deleteSessionsOlderThan _ w := (Normal {| SessionManager.deleted := 0 |}, w)
|}.

Definition freshProcess : Process unit :=
  {| world := tt; consoleLog := []; consoleError := []; exitCode := None; calls := [] |}.

End SessionCommand.

(** ** The [oracle.browserQuery] tool *)

Module BrowserQueryTool.

Record Input : Type := {
  prompt : jsstring;
  files : option (list jsstring);
  chromeProfile : option jsstring;
  chromePath : option jsstring;
  headless : option bool;
  keepBrowser : option bool;
  timeoutMs : option Z;
  inputTimeoutMs : option Z;
  cookieSync : option bool;
  allowCookieErrors : option bool
}.

Record BrowserAutomationConfig : Type := {
  configChromeProfile : option jsstring;
  configChromePath : option jsstring;
  configHeadless : option bool;
  configKeepBrowser : option bool;
  configTimeoutMs : option Z;
  configInputTimeoutMs : option Z;
  configCookieSync : option bool;
  configAllowCookieErrors : option bool
}.

Record Attachment : Type := {
  path : jsstring;
  displayPath : jsstring;
  sizeBytes : Z
}.

Record BrowserRunOptions : Type := {
  runPrompt : jsstring;
  attachments : list Attachment;
  config : BrowserAutomationConfig;
  verbose : bool
}.

(** The result of a browser query, with the two fields the handler reads:
    the specification's [QueryResult] is [{answerText, answerMarkdown?}]. *)
Record BrowserRunResult : Type := {
  answerText : jsstring;
  answerMarkdown : option jsstring
}.

Inductive ContentItem : Type :=
| TextContent (text : jsstring).

Record ToolResult : Type := { content : list ContentItem }.

(** What the handler calls: [process.cwd], [readFiles], [fs.stat],
    [path.relative] and [runBrowserMode].  [readFiles] gives the resolved
    path of each file and [stat] its size. *)
Record Environment : Type := {
  cwd : jsstring;
  readFiles : list jsstring -> jsstring -> Completion (list jsstring);
  stat : jsstring -> Completion Z;
  relative : jsstring -> jsstring -> jsstring;
  runBrowserMode : BrowserRunOptions -> Completion BrowserRunResult
}.

Local Open Scope completion_scope.

(** The loop that fills [attachments]. *)
Fixpoint pushAttachments (env : Environment) (resolved : list jsstring)
    (attachments : list Attachment) : Completion (list Attachment) :=
  match resolved with
  | [] => Normal attachments
  | filePath :: rest =>
      size <- stat env filePath ;;
      pushAttachments env rest
        (attachments ++
           [{| path := filePath;
               displayPath := orString (relative env (cwd env) filePath) filePath;
               sizeBytes := size |}])
  end.

Definition collectAttachments (env : Environment) (files : option (list jsstring))
  : Completion (list Attachment) :=
  match files with
  | Some ((_ :: _) as names) =>
      resolved <- readFiles env names (cwd env) ;;
      pushAttachments env resolved []
  | _ => Normal []
  end.

(** The argument of [runBrowserMode]. *)
Definition runOptions (input : Input) (attachments : list Attachment)
  : BrowserRunOptions :=
  let config :=
    {| configChromeProfile := chromeProfile input;
       configChromePath := chromePath input;
       configHeadless := headless input;
       configKeepBrowser := keepBrowser input;
       configTimeoutMs := timeoutMs input;
       configInputTimeoutMs := inputTimeoutMs input;
       configCookieSync := cookieSync input;
       configAllowCookieErrors := allowCookieErrors input |} in
  {| runPrompt := prompt input;
     attachments := attachments;
     config := config;
     verbose := false |}.

Definition browserQuery (env : Environment) (input : Input) : Completion ToolResult :=
  attachments <- collectAttachments env (files input) ;;
  result <- runBrowserMode env (runOptions input attachments) ;;
  let text :=
    orString (orElse (answerMarkdown result) (answerText result))
             (js "(no text output)") in
  Normal {| content := [TextContent text] |}.

(** A query whose extraction came back empty, with no files. *)
Definition emptyAnswerEnvironment : Environment := {|
  cwd := js "/work";
  readFiles _ _ := Normal [];
  stat _ := Normal 0%Z;
  relative _ p := p;
  runBrowserMode _ := Normal {| answerText := []; answerMarkdown := None |}
|}.

Definition summarizeInput : Input := {|
  prompt := js "Summarize this";
  files := None;
  chromeProfile := None;
  chromePath := None;
  headless := None;
  keepBrowser := None;
  timeoutMs := None;
  inputTimeoutMs := None;
  cookieSync := None;
  allowCookieErrors := None
|}.

End BrowserQueryTool.

(** ** The [oracle.query] tool *)

Module OracleQueryTool.

(** [MODEL_NAMES]. *)
Inductive ModelName : Type :=
| Gpt5Pro
| Gpt51.

Record Input : Type := {
  prompt : jsstring;
  model : option ModelName;
  files : option (list jsstring);
  system : option jsstring;
  maxInput : option Z;
  maxOutput : option Z;
  background : option bool;
  search : option bool
}.

Record RunOracleOptions : Type := {
  runPrompt : jsstring;
  runModel : ModelName;
  file : option (list jsstring);
  runSystem : option jsstring;
  runMaxInput : option Z;
  runMaxOutput : option Z;
  runBackground : option bool;
  runSearch : option bool;
  filesReport : bool;
  silent : bool;
  preview : bool;
  previewMode : option jsstring;
  verbose : bool
}.

Section Handler.
(** The response of the API, which only [extractTextOutput] looks into. *)
Context {Response : Type}.

(** What [runOracle] resolves to: a preview, with the two numbers the
    handler prints, or a response. *)
Inductive RunOracleResult : Type :=
| PreviewResult (estimatedInputTokens inputTokenBudget : Z)
| LiveResult (response : Response).

(** What the handler calls: [process.cwd], [runOracle] (which gets the
    working directory with a [log] that does nothing and a [write] that
    answers [true]), [extractTextOutput], and [toLocaleString] on a
    number, which depends on the locale. *)
Record Environment : Type := {
  cwd : jsstring;
  runOracle : RunOracleOptions -> jsstring -> Completion RunOracleResult;
  extractTextOutput : Response -> Completion jsstring;
  toLocaleString : Z -> jsstring
}.

(** [runOptions]. *)
Definition runOptions (input : Input) : RunOracleOptions :=
  let modelName :=
    match model input with
    | Some name => name
    | None => Gpt5Pro
    end in
  {| runPrompt := prompt input;
     runModel := modelName;
     file := files input;
     runSystem := system input;
     runMaxInput := maxInput input;
     runMaxOutput := maxOutput input;
     runBackground := background input;
     runSearch := search input;
     filesReport := false;
     silent := true;
     preview := false;
     previewMode := None;
     verbose := false |}.

Definition NEWLINE : jsstring := [10%N].

Definition oracleQuery (env : Environment) (input : Input)
  : Completion BrowserQueryTool.ToolResult :=
  (result <- runOracle env (runOptions input) (cwd env) ;;
   match result with
   | PreviewResult estimatedInputTokens inputTokenBudget =>
       let summary :=
         joinWith NEWLINE
           [js "Oracle returned a preview result.";
            js "Estimated input tokens: " ++ toLocaleString env estimatedInputTokens;
            js "Input token budget: " ++ toLocaleString env inputTokenBudget] in
       Normal {| BrowserQueryTool.content := [BrowserQueryTool.TextContent summary] |}
   | LiveResult response =>
       extracted <- extractTextOutput env response ;;
       let text := orString extracted (js "(no text output)") in
       Normal {| BrowserQueryTool.content := [BrowserQueryTool.TextContent text] |}
   end)%completion.

End Handler.

(** An API whose response holds no text. *)
Definition silentEnvironment : @Environment unit := {|
  cwd := js "/work";
  runOracle _ _ := Normal (LiveResult tt);
  extractTextOutput _ := Normal [];
  toLocaleString z := SessionCommand.numberToString z
|}.

Definition summarizeInput : Input := {|
  prompt := js "Summarize this";
  model := None;
  files := None;
  system := None;
  maxInput := None;
  maxOutput := None;
  background := None;
  search := None
|}.

End OracleQueryTool.

(** ** Further inputs *)

Module SessionInputs.
Import SessionCommand.

(** [oracle session --all], [oracle session --clear --hours 24] and
    [oracle session] with nothing else. *)
Definition listAllOptions : StatusOptions :=
  {| hours := 24; limit := 10; all := true; clear := None; clean := None |}.

Definition plainOptions : StatusOptions :=
  {| hours := 24; limit := 10; all := false; clear := None; clean := None |}.

(** Dependencies over a world that counts the stored sessions: the clean-up
    removes them all and says how many there were. *)
Definition countingDependencies : @SessionCommandDependencies Z StatusOptions := {|
  showStatus _ w := (Normal tt, w);
  attachSession _ w := (Normal tt, w);
  usesDefaultStatusFilters _ := true;
  deleteSessionsOlderThan _ w := (Normal {| SessionManager.deleted := w |}, 0%Z)
|}.

(** Dependencies whose clean-up fails. *)
Definition failingDependencies : @SessionCommandDependencies Z StatusOptions := {|
  showStatus _ w := (Normal tt, w);
  attachSession _ w := (Throw (ThrownError (js "No session found")), w);
  usesDefaultStatusFilters _ := true;
  deleteSessionsOlderThan _ w := (Throw (ThrownError (js "EACCES")), w)
|}.

Definition oneSessionProcess : Process Z :=
  {| world := 1%Z; consoleLog := []; consoleError := []; exitCode := None; calls := [] |}.

End SessionInputs.

Module ProbeInputs.
Import SearchToggle.

(** The page of [switchOffDocument], but reading the text of its first
    element throws. *)
Definition brokenElementDom : Dom := {|
  querySelectorAll := querySelectorAll (staticDom switchOffDocument);
  instanceofHTMLElement := instanceofHTMLElement (staticDom switchOffDocument);
  textContent node :=
    match node with
    | 0 => Throw (ThrownError (js "Illegal invocation"))
    | _ => textContent (staticDom switchOffDocument) node
    end;
  getAttribute := getAttribute (staticDom switchOffDocument);
  click := click (staticDom switchOffDocument)
|}.

(** The page of [switchOffDocument], but [click()] throws
    [Object.create(null)], which [String] cannot convert. *)
Definition unconvertibleClickDom : Dom := {|
  querySelectorAll := querySelectorAll (staticDom switchOffDocument);
  instanceofHTMLElement := instanceofHTMLElement (staticDom switchOffDocument);
  textContent := textContent (staticDom switchOffDocument);
  getAttribute := getAttribute (staticDom switchOffDocument);
  click _ := Throw (ThrownUnconvertible cannotConvert)
|}.

(** The number [42]. *)
Definition fortyTwo : JsNumber := {| numberIsFalsy := false; numberText := js "42" |}.

(** A page whose queries throw an [Error] whose [message] was set to
    [42]. *)
Definition numberMessageDom : Dom := {|
  querySelectorAll _ := Throw (ThrownErrorWith (VNumber fortyTwo));
  instanceofHTMLElement _ := false;
  textContent _ := Normal None;
  getAttribute _ _ := Normal None;
  click _ := Normal tt
|}.



(** The keywords without [web search]. *)
Definition SHORT_KEYWORDS : list jsstring :=
  [js "search"; js "browse"; js "browsing"].

End ProbeInputs.

Module BrowserInputs.
Import BrowserQueryTool.

(** The attachment of a resolved file whose size is [sizeOf]. *)
Definition attachmentOf (env : Environment) (sizeOf : jsstring -> Z)
    (filePath : jsstring) : Attachment :=
  {| path := filePath;
     displayPath := orString (relative env (cwd env) filePath) filePath;
     sizeBytes := sizeOf filePath |}.

(** A query with one file, answered in plain text only. *)
Definition fileEnvironment : Environment := {|
  cwd := js "/work";
  readFiles names _ := Normal (map (fun name => js "/work/" ++ name) names);
  stat _ := Normal 12%Z;
  relative _ p := List.skipn 6 p;
  runBrowserMode _ := Normal {| answerText := js "Done."; answerMarkdown := Some [] |}
|}.

Definition fileInput : Input := {|
  prompt := js "Summarize this";
  files := Some [js "notes.txt"];
  chromeProfile := None;
  chromePath := None;
  headless := None;
  keepBrowser := None;
  timeoutMs := None;
  inputTimeoutMs := None;
  cookieSync := None;
  allowCookieErrors := None
|}.

(** A query whose file cannot be read. *)
Definition unreadableEnvironment : Environment := {|
  cwd := js "/work";
  readFiles _ _ := Throw (ThrownError (js "ENOENT"));
  stat _ := Normal 0%Z;
  relative _ p := p;
  runBrowserMode _ := Normal {| answerText := js "Done."; answerMarkdown := None |}
|}.

End BrowserInputs.

(** * Properties *)

Import SearchToggle.

(** ** Strings *)

Section StringFacts.

Lemma isAlnum_not_space (c : N) : isAlnum c = true -> (c =? SPACE)%N = false.
Proof.
  unfold isAlnum, SPACE. intros H. apply N.eqb_neq. intros ->. discriminate H.
Qed.

Lemma isAlnum_not_whitespace (c : N) : isAlnum c = true -> isWhiteSpace c = false.
Proof.
  unfold isAlnum, isWhiteSpace. intros H.
  apply not_true_is_false. intros W.
  rewrite !orb_true_iff, !andb_true_iff, !N.leb_le in H.
  rewrite !orb_true_iff, !andb_true_iff, !N.leb_le, !N.eqb_eq in W.
  lia.
Qed.

Lemma space_is_whitespace : isWhiteSpace SPACE = true.
Proof. reflexivity. Qed.

Lemma tidy_weaken (s : jsstring) (b : bool) :
  tidy b s = true -> tidy false s = true.
Proof.
  destruct s as [|c rest]; [reflexivity|]. simpl.
  destruct (c =? SPACE)%N; [|tauto].
  rewrite !andb_true_iff. tauto.
Qed.

Lemma tidy_plain (s : jsstring) :
  forall b, tidy b s = true -> Forall (fun c => isAlnum c = true \/ c = SPACE) s.
Proof.
  induction s as [|c rest IH]; intros b H; [constructor|].
  simpl in H. destruct (c =? SPACE)%N eqn:E.
  - apply andb_true_iff in H as [_ H]. constructor; [|eauto].
    right. by apply N.eqb_eq.
  - apply andb_true_iff in H as [A H]. constructor; eauto.
Qed.

(** What the first [replace] leaves is tidy. *)
Lemma replaceRuns_tidy (s : jsstring) :
  forall b, tidy b (replaceRuns (fun c => negb (isAlnum c)) b s) = true.
Proof.
  induction s as [|c rest IH]; intros b; [reflexivity|].
  simpl. destruct (isAlnum c) eqn:A; simpl.
  - rewrite (isAlnum_not_space c A), A. apply IH.
  - destruct b; [apply IH|]. simpl. apply IH.
Qed.

(** On a tidy string neither [replace] changes anything. *)
Lemma replaceRuns_tidy_id (inClass : N -> bool) (s : jsstring) :
  inClass SPACE = true ->
  (forall c, isAlnum c = true -> inClass c = false) ->
  forall b, tidy b s = true -> replaceRuns inClass b s = s.
Proof.
  intros Hsp Hal. induction s as [|c rest IH]; intros b H; [reflexivity|].
  simpl in *. destruct (c =? SPACE)%N eqn:E.
  - apply N.eqb_eq in E. subst c. rewrite Hsp.
    apply andb_true_iff in H as [Hb H].
    destruct b; [discriminate|]. f_equal. by apply IH.
  - apply andb_true_iff in H as [A H].
    rewrite (Hal c A). f_equal. by apply IH.
Qed.

Lemma trimStart_tidy (s : jsstring) :
  forall b, tidy b s = true -> tidy false (trimStart s) = true.
Proof.
  induction s as [|c rest IH]; intros b H; [reflexivity|].
  simpl. destruct (isWhiteSpace c) eqn:W.
  - simpl in H. destruct (c =? SPACE)%N.
    + apply andb_true_iff in H as [_ H]. eauto.
    + apply andb_true_iff in H as [A _].
      rewrite (isAlnum_not_whitespace c A) in W. discriminate.
  - eapply tidy_weaken, H.
Qed.

Lemma trimEnd_tidy (s : jsstring) :
  forall b, tidy b s = true -> tidy b (trimEnd s) = true.
Proof.
  induction s as [|c rest IH]; intros b H; [reflexivity|].
  simpl in *. destruct (c =? SPACE)%N eqn:E.
  - apply andb_true_iff in H as [Hb H]. specialize (IH _ H).
    destruct (trimEnd rest) as [|k kept].
    + apply N.eqb_eq in E. subst c. reflexivity.
    + simpl. rewrite E, Hb. exact IH.
  - apply andb_true_iff in H as [A H]. specialize (IH _ H).
    destruct (trimEnd rest) as [|k kept].
    + rewrite (isAlnum_not_whitespace c A). simpl. by rewrite E, A.
    + simpl. rewrite E, A. exact IH.
Qed.

Lemma trimStart_startsClean (s : jsstring) : startsClean (trimStart s).
Proof.
  induction s as [|c rest IH]; simpl; [exact I|].
  destruct (isWhiteSpace c) eqn:W; [exact IH|exact W].
Qed.

Lemma trimStart_id (s : jsstring) : startsClean s -> trimStart s = s.
Proof. destruct s as [|c rest]; simpl; [reflexivity|]. by intros ->. Qed.

Lemma trimEnd_startsClean (s : jsstring) : startsClean s -> startsClean (trimEnd s).
Proof.
  destruct s as [|c rest]; simpl; [tauto|]. intros W.
  destruct (trimEnd rest); [rewrite W|]; exact W.
Qed.

Lemma trimEnd_idempotent (s : jsstring) : trimEnd (trimEnd s) = trimEnd s.
Proof.
  induction s as [|c rest IH]; [reflexivity|]. simpl.
  destruct (trimEnd rest) as [|k kept] eqn:E.
  - destruct (isWhiteSpace c) eqn:W; [reflexivity|]. simpl. by rewrite W.
  - change (trimEnd (c :: k :: kept)) with
      (match trimEnd (k :: kept) with
       | [] => if isWhiteSpace c then [] else [c]
       | kept' => c :: kept'
       end).
    by rewrite IH.
Qed.

Lemma trim_idempotent (s : jsstring) : trim (trim s) = trim s.
Proof.
  unfold trim.
  rewrite (trimStart_id (trimEnd (trimStart s))).
  - apply trimEnd_idempotent.
  - apply trimEnd_startsClean, trimStart_startsClean.
Qed.

Lemma trim_tidy (s : jsstring) : tidy false s = true -> tidy false (trim s) = true.
Proof. intros H. unfold trim. eapply trimEnd_tidy, trimStart_tidy, H. Qed.

Context {lower : CaseMapping}.

(** [normalizeText] always ends on a tidy string that [trim] leaves alone. *)
Lemma normalizeText_tidy (s : jsstring) : tidy false (normalizeText s) = true.
Proof.
  unfold normalizeText. destruct (truthy s); simpl; [|reflexivity].
  apply trim_tidy. unfold replaceAllRuns.
  rewrite (replaceRuns_tidy_id isWhiteSpace); try apply replaceRuns_tidy.
  - reflexivity.
  - apply isAlnum_not_whitespace.
Qed.

Lemma normalizeText_trimmed (s : jsstring) : trim (normalizeText s) = normalizeText s.
Proof.
  unfold normalizeText. destruct (truthy s); simpl; [|reflexivity].
  apply trim_idempotent.
Qed.

(** A tidy, trimmed string is a fixed point of [normalizeText]. *)
Lemma normalizeText_fixes_tidy (s : jsstring) :
  LowerCaseKeepsPlain -> tidy false s = true -> trim s = s -> normalizeText s = s.
Proof.
  intros Hlower Ht Htrim. unfold normalizeText.
  destruct s as [|c rest]; [reflexivity|]. simpl negb. cbv iota.
  rewrite (Hlower (c :: rest)) by (eapply tidy_plain, Ht).
  unfold replaceAllRuns.
  rewrite (replaceRuns_tidy_id (fun c => negb (isAlnum c))); try assumption.
  - rewrite (replaceRuns_tidy_id isWhiteSpace); try assumption.
    + reflexivity.
    + apply isAlnum_not_whitespace.
  - reflexivity.
  - by intros k ->.
Qed.

(** C4. [normalizeText] is idempotent: normalizing a string that is already
    normalized gives the same string back.  [toLowerCase] is a parameter,
    of which one fact is used: it changes nothing in a string of lower-case
    Basic Latin letters, digits and spaces. *)
Theorem normalizeText_idempotent (s : jsstring) :
  LowerCaseKeepsPlain -> normalizeText (normalizeText s) = normalizeText s.
Proof.
  intros Hlower. apply normalizeText_fixes_tidy.
  - exact Hlower.
  - apply normalizeText_tidy.
  - apply normalizeText_trimmed.
Qed.

End StringFacts.

Section Substrings.

Lemma startsWith_spec (search s : jsstring) :
  startsWith s search = true <-> exists after, s = search ++ after.
Proof.
  revert s. induction search as [|k search IH]; intros s; simpl.
  - split; [eauto|reflexivity].
  - destruct s as [|c s'].
    + split; [discriminate|]. intros [after H]. discriminate H.
    + rewrite andb_true_iff, N.eqb_eq, IH. split.
      * intros [-> [after ->]]. eauto.
      * intros [after H]. injection H as -> ->. eauto.
Qed.

(** [includes] decides the occurrence of a substring. *)
Lemma includes_spec (s search : jsstring) :
  includes s search = true <-> substring search s.
Proof.
  unfold substring. induction s as [|c s' IH].
  - simpl. rewrite orb_false_r, startsWith_spec. split.
    + intros [after H]. exists [], after. exact H.
    + intros [before [after H]]. destruct before; [eauto|discriminate].
  - simpl. rewrite orb_true_iff, startsWith_spec, IH. split.
    + intros [[after H] | [before [after H]]].
      * exists [], after. exact H.
      * exists (c :: before), after. simpl. by rewrite H.
    + intros [before [after H]]. destruct before as [|d before].
      * left. eauto.
      * right. injection H as _ H. eauto.
Qed.

Lemma truthy_app_cons (a b : jsstring) (c : N) : truthy (a ++ c :: b) = true.
Proof. by destruct a. Qed.

End Substrings.

(** ** The case mapping of the examples *)

Lemma asciiLowerCase_keeps_plain : @LowerCaseKeepsPlain asciiLowerCase.
Proof.
  intros s H. unfold toLowerCase, asciiLowerCase.
  induction H as [|c rest Hc _ IH]; [reflexivity|].
  simpl. rewrite IH. f_equal. unfold asciiLowerUnit.
  destruct ((65 <=? c) && (c <=? 90))%N eqn:E; [|reflexivity].
  apply andb_true_iff in E as [E1 E2]. apply N.leb_le in E1, E2.
  destruct Hc as [A | ->]; [|unfold SPACE in E1; lia].
  unfold isAlnum in A.
  rewrite !orb_true_iff, !andb_true_iff, !N.leb_le in A. lia.
Qed.

(** ** The selection loop *)

Section Selection.
Context {lower : CaseMapping}.
Hypothesis lower_plain : LowerCaseKeepsPlain.

Lemma normalizeText_keyword (kw : jsstring) :
  In kw KEYWORDS -> normalizeText kw = kw.
Proof using lower_plain.
  intros H. apply normalizeText_fixes_tidy; [exact lower_plain | |];
    simpl in H; intuition (subst; reflexivity).
Qed.

(** The test of the loop is the occurrence of a keyword. *)
Lemma matchesKeywords_spec (h : jsstring) :
  matchesKeywords h = true <-> containsKeyword h.
Proof using lower_plain.
  unfold matchesKeywords, containsKeyword. rewrite existsb_exists. split.
  - intros [kw [Hin Hinc]]. exists kw. split; [exact Hin|].
    rewrite normalizeText_keyword in Hinc by exact Hin.
    by apply includes_spec.
  - intros [kw [Hin Hsub]]. exists kw. split; [exact Hin|].
    rewrite normalizeText_keyword by exact Hin.
    by apply includes_spec.
Qed.

Lemma haystack_truthy (dom : Dom) (node : Node) (h : jsstring) :
  haystackOf dom node = Normal h -> truthy h = true.
Proof.
  unfold haystackOf, bindCompletion.
  destruct (textContent dom node); [|discriminate].
  destruct (getAttribute dom node (js "aria-label")); [|discriminate].
  destruct (getAttribute dom node (js "data-testid")); [|discriminate].
  intros [= <-]. apply truthy_app_cons.
Qed.

Lemma findBest_passedOver (dom : Dom) (node : Node) (rest : list Node) :
  passedOver dom node -> findBest dom (node :: rest) = findBest dom rest.
Proof using lower_plain.
  intros [Hnot | [h [Hh Hfree]]]; simpl.
  - by rewrite Hnot.
  - destruct (instanceofHTMLElement dom node); [|reflexivity]. simpl.
    rewrite Hh. simpl. rewrite (haystack_truthy _ _ _ Hh). simpl.
    destruct (matchesKeywords h) eqn:M; [|reflexivity].
    apply matchesKeywords_spec in M. contradiction.
Qed.

Lemma findBest_skips (dom : Dom) (before rest : list Node) :
  (forall c, In c before -> passedOver dom c) ->
  findBest dom (before ++ rest) = findBest dom rest.
Proof using lower_plain.
  induction before as [|c before IH]; intros H; [reflexivity|].
  rewrite <- app_comm_cons, findBest_passedOver.
  - apply IH. intros k Hk. apply H. by right.
  - apply H. by left.
Qed.

Lemma findBest_match (dom : Dom) (b : Node) (after : list Node) :
  instanceofHTMLElement dom b = true -> keywordMatching dom b ->
  findBest dom (b :: after) = Normal (Some b).
Proof using lower_plain.
  intros Hhtml [h [Hh Hkw]]. simpl. rewrite Hhtml. simpl.
  rewrite Hh. simpl. rewrite (haystack_truthy _ _ _ Hh). simpl.
  apply matchesKeywords_spec in Hkw. by rewrite Hkw.
Qed.

Lemma findBest_first (dom : Dom) (before after : list Node) (b : Node) :
  (forall c, In c before -> passedOver dom c) ->
  instanceofHTMLElement dom b = true -> keywordMatching dom b ->
  findBest dom (before ++ b :: after) = Normal (Some b).
Proof using lower_plain.
  intros Hbefore Hhtml Hkw.
  rewrite findBest_skips by exact Hbefore. by apply findBest_match.
Qed.

Lemma findBest_none (dom : Dom) (candidates : list Node) :
  (forall c, In c candidates -> passedOver dom c) ->
  findBest dom candidates = Normal None.
Proof using lower_plain.
  intros H. rewrite <- (app_nil_r candidates). by rewrite findBest_skips.
Qed.

End Selection.

(** ** One run of the script *)

Section Run.
Context {lower : CaseMapping}.

(** The run, read off the results of its steps. *)
Lemma evaluateProbe_steps (dom : Dom) :
  evaluateProbe dom =
  match collectCandidates dom SELECTORS [] with
  | Throw e => (caught e, [])
  | Normal candidates =>
      match findBest dom candidates with
      | Throw e => (caught e, [])
      | Normal None => (Normal NotFound, [])
      | Normal (Some best) =>
          match getLabel dom best with
          | Throw e => (caught e, [])
          | Normal label =>
              match isOn dom best with
              | Throw e => (caught e, [])
              | Normal true => (Normal (AlreadyOn (Some label)), [])
              | Normal false =>
                  match click dom best with
                  | Throw e => (caught e, [best])
                  | Normal _ => (Normal (ToggledOn (Some label)), [best])
                  end
              end
          end
      end
  end.
Proof.
  unfold evaluateProbe, buildSearchToggleExpression, tryCatch, probe, bind, read,
    ret, caught.
  destruct (collectCandidates dom SELECTORS []) as [candidates|e];
    [|by destruct (errorMessage e)].
  destruct (findBest dom candidates) as [[best|]|e];
    [|reflexivity|by destruct (errorMessage e)].
  destruct (getLabel dom best) as [label|e]; [|by destruct (errorMessage e)].
  destruct (isOn dom best) as [[|]|e];
    [reflexivity| |by destruct (errorMessage e)].
  unfold clickElement. simpl.
  destruct (click dom best) as [u|e]; [reflexivity|by destruct (errorMessage e)].
Qed.

(** The [catch] clause returns nothing but the [error] variant. *)
Lemma caught_error (e : Thrown) (r : SearchToggleResult) :
  caught e = Normal r -> exists message, r = Error message.
Proof. unfold caught. destruct (errorMessage e); [|discriminate]. intros [= <-]. eauto. Qed.

Lemma orElse_some (s : jsstring) : orElse (Some s) [] = s.
Proof. by destruct s. Qed.

Lemma firstNonEmpty_three (a t d : jsstring) :
  orString (orString a t) d = firstNonEmpty [a; t; d].
Proof. destruct a, t, d; reflexivity. Qed.

(** The label is the first non-empty of [aria-label], text and
    [data-testid], trimmed. *)
Lemma getLabel_spec (dom : Dom) (el : Node) (ariaLabel text testId : jsstring) :
  instanceofHTMLElement dom el = true ->
  labelSources dom el ariaLabel text testId ->
  getLabel dom el = Normal (trim (firstNonEmpty [ariaLabel; text; testId])).
Proof.
  intros Hhtml (a & t & d & Ha & Ht & Hd & -> & -> & ->).
  unfold getLabel. rewrite Hhtml, Ha, Hd, Ht. simpl.
  by rewrite firstNonEmpty_three.
Qed.

(** An element that has a haystack has the three sources of a label. *)
Lemma haystack_labelSources (dom : Dom) (el : Node) (h : jsstring) :
  haystackOf dom el = Normal h ->
  exists ariaLabel text testId, labelSources dom el ariaLabel text testId.
Proof.
  unfold haystackOf, labelSources, bindCompletion.
  destruct (textContent dom el) as [t|]; [|discriminate].
  destruct (getAttribute dom el (js "aria-label")) as [a|]; [|discriminate].
  destruct (getAttribute dom el (js "data-testid")) as [d|]; [|discriminate].
  intros _. exists (orElse a []), (orElse t []), (orElse d []), a, t, d.
  repeat split.
Qed.

Lemma isTrueAttribute_spec (attr : option jsstring) :
  isTrueAttribute attr = true <-> attr = Some (js "true").
Proof.
  destruct attr as [s|]; simpl; [|split; discriminate].
  unfold strictEq. rewrite bool_decide_eq_true. split; congruence.
Qed.

Lemma existsb_strictEq (x : jsstring) (l : list jsstring) :
  existsb (strictEq x) l = true <-> In x l.
Proof.
  rewrite existsb_exists. unfold strictEq. split.
  - intros [y [Hy E]]. apply bool_decide_eq_true in E. by subst.
  - intros H. exists x. split; [exact H|]. by apply bool_decide_eq_true.
Qed.

Lemma isOn_on (dom : Dom) (el : Node) :
  instanceofHTMLElement dom el = true -> onState dom el ->
  isOn dom el = Normal true.
Proof.
  intros Hhtml (pressed & checked & state & (Hp & Hc & Hs) & Hon).
  unfold isOn. rewrite Hhtml, Hp, Hc, Hs. cbn [negb bindCompletion].
  destruct (isTrueAttribute pressed || isTrueAttribute checked) eqn:E; [reflexivity|].
  apply orb_false_iff in E as [Ep Ec].
  destruct Hon as [-> | [-> | (s & -> & Hin)]]; try discriminate.
  rewrite orElse_some. apply existsb_strictEq in Hin. by rewrite Hin.
Qed.

Lemma isOn_off (dom : Dom) (el : Node) :
  LowerCaseKeepsPlain ->
  instanceofHTMLElement dom el = true -> offState dom el ->
  isOn dom el = Normal false.
Proof.
  intros Hlower Hhtml (pressed & checked & state & (Hp & Hc & Hs) & Hnp & Hnc & Hns).
  unfold isOn. rewrite Hhtml, Hp, Hc, Hs. cbn [negb bindCompletion].
  destruct (isTrueAttribute pressed) eqn:Ep.
  { apply isTrueAttribute_spec in Ep. contradiction. }
  destruct (isTrueAttribute checked) eqn:Ec.
  { apply isTrueAttribute_spec in Ec. contradiction. }
  cbn [orb].
  destruct (existsb (strictEq (toLowerCase (orElse state []))) ON_STATES) eqn:E;
    [|reflexivity].
  apply existsb_strictEq in E. destruct state as [s|].
  - rewrite orElse_some in E. exfalso. apply Hns. by exists s.
  - simpl in E. rewrite (Hlower []) in E by constructor.
    simpl in E. intuition discriminate.
Qed.

End Run.

(** The two ways the [catch] clause ends. *)
Ltac caught_cases :=
  unfold caught in *; cbv beta iota in *;
  repeat match goal with
         | |- context [errorMessage ?e] => destruct (errorMessage e)
         | H : context [errorMessage ?e] |- _ => destruct (errorMessage e)
         end.

(** No other variant comes out of the [catch] clause. *)
Ltac not_caught :=
  let H := fresh "H" in
  cbn [fst]; intros H; try discriminate H;
  apply caught_error in H as [? H]; discriminate H.

(** ** The candidate set *)

Section Candidates.

Lemma setAdd_In (candidates : list Node) (el n : Node) :
  In n (setAdd candidates el) <-> In n candidates \/ n = el.
Proof.
  unfold setAdd. destruct (existsb (Nat.eqb el) candidates) eqn:E.
  - split; [tauto|]. intros [H | ->]; [exact H|].
    apply existsb_exists in E as [k [Hk Ek]].
    apply Nat.eqb_eq in Ek. by subst.
  - rewrite in_app_iff. simpl. intuition.
Qed.

Lemma setAdd_NoDup (candidates : list Node) (el : Node) :
  NoDup candidates -> NoDup (setAdd candidates el).
Proof.
  intros H. unfold setAdd.
  destruct (existsb (Nat.eqb el) candidates) eqn:E; [exact H|].
  apply NoDup_app. repeat split; [exact H| |apply NoDup_singleton].
  intros k Hk Hel. apply list_elem_of_In in Hk. apply list_elem_of_In in Hel.
  destruct Hel as [<- | []].
  assert (existsb (Nat.eqb el) candidates = true) as Habs; [|congruence].
  apply existsb_exists. exists el. split; [exact Hk|apply Nat.eqb_refl].
Qed.

Lemma addAll_In (found candidates : list Node) (n : Node) :
  In n (fold_left setAdd found candidates) <-> In n candidates \/ In n found.
Proof.
  revert candidates. induction found as [|el found IH]; intros candidates; simpl.
  - tauto.
  - rewrite IH, setAdd_In. intuition.
Qed.

Lemma addAll_NoDup (found candidates : list Node) :
  NoDup candidates -> NoDup (fold_left setAdd found candidates).
Proof.
  revert candidates. induction found as [|el found IH]; intros candidates H; simpl.
  - exact H.
  - by apply IH, setAdd_NoDup.
Qed.

Lemma filter_filter_and (p q : Node -> bool) (l : list Node) :
  List.filter p (List.filter q l) = List.filter (fun y => p y && q y) l.
Proof.
  induction l as [|x l IH]; [reflexivity|]. simpl.
  destruct (q x); simpl; [destruct (p x); simpl; by rewrite IH|].
  by rewrite andb_false_r.
Qed.

(** Adding a list to the set appends what is new, at its first occurrence. *)
Lemma addAll_firstOccurrences (found seen : list Node) :
  fold_left setAdd found seen
  = seen ++ List.filter (unseen seen) (firstOccurrences found).
Proof.
  revert seen. induction found as [|x found IH]; intros seen.
  - simpl. by rewrite app_nil_r.
  - cbn [fold_left firstOccurrences List.filter]. rewrite IH, filter_filter_and.
    unfold setAdd.
    replace (unseen seen x) with (negb (existsb (Nat.eqb x) seen)) by reflexivity.
    destruct (existsb (Nat.eqb x) seen) eqn:E; cbn [negb].
    + f_equal. apply filter_ext_in. intros y _.
      destruct (Nat.eqb y x) eqn:Eyx; cbn [negb]; [|by rewrite andb_true_r].
      apply Nat.eqb_eq in Eyx. subst y. unfold unseen. by rewrite E.
    + rewrite <- app_assoc. cbn [app]. f_equal. f_equal.
      apply filter_ext_in. intros y _. unfold unseen.
      rewrite existsb_app. cbn [existsb]. by rewrite orb_false_r, negb_orb.
Qed.

Lemma collectCandidates_fold (dom : Dom) (selectors : list jsstring) :
  forall start candidates,
    collectCandidates dom selectors start = Normal candidates ->
    exists results : list (list Node),
      Forall2 (fun selector found => querySelectorAll dom selector = Normal found)
              selectors results /\
      candidates = fold_left setAdd (concat results) start.
Proof.
  induction selectors as [|selector rest IH]; intros start candidates H; simpl in H.
  - injection H as <-. exists []. split; [constructor|reflexivity].
  - destruct (querySelectorAll dom selector) as [found|] eqn:Q; [|discriminate].
    simpl in H. apply IH in H as (results & Hall & ->).
    exists (found :: results). split; [by constructor|].
    simpl. by rewrite fold_left_app.
Qed.

(** The candidate set is in query order. *)
Lemma candidates_inQueryOrder (dom : Dom) (candidates : list Node) :
  collectCandidates dom SELECTORS [] = Normal candidates ->
  inQueryOrder dom candidates.
Proof.
  intros H. apply collectCandidates_fold in H as (results & Hall & ->).
  exists results. split; [exact Hall|].
  rewrite addAll_firstOccurrences. simpl.
  rewrite <- (filter_ext_in (fun _ => true)) by reflexivity.
  induction (firstOccurrences (concat results)) as [|x l IH]; [reflexivity|].
  simpl. by rewrite IH.
Qed.

(** The candidates are the elements the selectors find, each once. *)
Lemma collectCandidates_spec (dom : Dom) (selectors : list jsstring) :
  forall start candidates,
    collectCandidates dom selectors start = Normal candidates ->
    NoDup start ->
    NoDup candidates /\
    forall n, In n candidates <->
      In n start \/
      exists selector found,
        In selector selectors /\
        querySelectorAll dom selector = Normal found /\ In n found.
Proof.
  induction selectors as [|selector rest IH]; intros start candidates H Hnd; simpl in H.
  - injection H as <-. split; [exact Hnd|]. intros n. split; [tauto|].
    intros [Hn | (s & f & [] & _)]. exact Hn.
  - destruct (querySelectorAll dom selector) as [found|] eqn:Q; [|discriminate].
    simpl in H. apply IH in H as [Hnd' Hin]; [|by apply addAll_NoDup].
    split; [exact Hnd'|]. intros n. rewrite Hin, addAll_In. split.
    + intros [[Hn | Hn] | (s & f & Hs & Hq & Hf)].
      * by left.
      * right. exists selector, found. repeat split; [by left|exact Q|exact Hn].
      * right. exists s, f. repeat split; [by right|exact Hq|exact Hf].
    + intros [Hn | (s & f & [<- | Hs] & Hq & Hf)].
      * left. by left.
      * left. right. rewrite Q in Hq. by injection Hq as ->.
      * right. exists s, f. by repeat split.
Qed.

End Candidates.

(** ** The outcome of the script *)

Section Outcome.
Context {lower : CaseMapping}.

(** The loop's own test settles whether a keyword occurs. *)
Lemma keywordMatching_by_test (dom : Dom) (node : Node) (h : jsstring) :
  LowerCaseKeepsPlain ->
  haystackOf dom node = Normal h -> matchesKeywords h = true ->
  keywordMatching dom node.
Proof.
  intros Hlower Hh M. exists h. split; [exact Hh|].
  by apply (matchesKeywords_spec Hlower).
Qed.

Lemma keywordFree_by_test (dom : Dom) (node : Node) (h : jsstring) :
  LowerCaseKeepsPlain ->
  haystackOf dom node = Normal h -> matchesKeywords h = false ->
  keywordFree dom node.
Proof.
  intros Hlower Hh M. exists h. split; [exact Hh|].
  intros K. apply (matchesKeywords_spec Hlower) in K. congruence.
Qed.





(** C3. The script does not always return one of the four variants.  Its
    [catch] clause evaluates
    [error instanceof Error ? error.message : String(error)], and that can
    throw in its turn: on the page of [switchOffDocument] whose [click()]
    throws [Object.create(null)], the element is clicked and the script
    throws the [TypeError] of the conversion.  And when the thrown [Error]
    has a [message] that is not a string, the [error] variant carries that
    value and not a string. *)
Theorem catch_clause_can_throw :
  @evaluateProbe asciiLowerCase ProbeInputs.unconvertibleClickDom
  = (Throw cannotConvert, [1]) /\
  @evaluateProbe asciiLowerCase ProbeInputs.numberMessageDom
  = (Normal (Error (VNumber ProbeInputs.fortyTwo)), []).
Proof. split; reflexivity. Qed.

(** C2. In a page where every candidate has a haystack and no keyword occurs
    in any of them, the script returns [not-found] and clicks nothing. *)
Theorem no_keyword_not_found (dom : Dom) (candidates : list Node) :
  LowerCaseKeepsPlain ->
  candidatesOf dom candidates ->
  (forall c, In c candidates -> keywordFree dom c) ->
  evaluateProbe dom = (Normal NotFound, []).
Proof.
  intros Hlower Hc Hfree. rewrite evaluateProbe_steps, Hc.
  rewrite (findBest_none Hlower); [reflexivity|].
  intros c Hin. right. by apply Hfree.
Qed.

(** C1, as amended. If the first candidate that is an [HTMLElement] and has
    a keyword in its haystack (candidates that are not [HTMLElement]s are
    passed over) has [aria-pressed="true"], or [aria-checked="true"], or a
    [data-state] whose lower-cased value is one of on, true, checked,
    selected, active, then the script returns [already-on] and clicks
    nothing. *)
Theorem on_state_already_on (dom : Dom) (b : Node) :
  LowerCaseKeepsPlain ->
  firstMatchingHTMLElement dom b -> onState dom b ->
  exists label, evaluateProbe dom = (Normal (AlreadyOn (Some label)), []).
Proof.
  intros Hlower (candidates & before & after & Hc & -> & Hbefore & Hhtml & Hkw) Hon.
  pose proof Hkw as [h [Hh _]].
  destruct (haystack_labelSources _ _ _ Hh) as (a & t & d & Hsrc).
  eexists. rewrite evaluateProbe_steps, Hc.
  rewrite (findBest_first Hlower) by assumption.
  rewrite (getLabel_spec _ _ _ _ _ Hhtml Hsrc).
  by rewrite (isOn_on _ _ Hhtml Hon).
Qed.

(** C5, as amended. The candidates are the elements that the five selectors
    find, in query order and each once, and the loop ends on the first of
    them that is an [HTMLElement] and has a keyword in its haystack:
    candidates that are not [HTMLElement]s are passed over.  The script
    then does not return [not-found], and clicks no other element. *)
Theorem selects_first_matching_html_element (dom : Dom) (b : Node) :
  LowerCaseKeepsPlain ->
  firstMatchingHTMLElement dom b ->
  selectsBest dom b /\
  (forall candidates, candidatesOf dom candidates ->
     inQueryOrder dom candidates /\
     NoDup candidates /\
     forall n, In n candidates <->
       exists selector found,
         In selector SELECTORS /\
         querySelectorAll dom selector = Normal found /\ In n found) /\
  fst (evaluateProbe dom) <> Normal NotFound /\
  (forall n, In n (snd (evaluateProbe dom)) -> n = b).
Proof.
  intros Hlower (candidates & before & after & Hc & -> & Hbefore & Hhtml & Hkw).
  assert (findBest dom (before ++ b :: after) = Normal (Some b)) as Hbest
    by (by apply findBest_first).
  split; [by exists (before ++ b :: after)|].
  split.
  { intros cs Hcs. split; [by apply candidates_inQueryOrder|].
    apply collectCandidates_spec in Hcs as [Hnd Hin]; [|apply NoDup_nil_2].
    split; [exact Hnd|]. intros n. rewrite Hin. simpl. tauto. }
  pose proof (evaluateProbe_steps dom) as Hrun. rewrite Hc, Hbest in Hrun.
  destruct (getLabel dom b);
    [|rewrite Hrun; split; [not_caught|intros n []]].
  destruct (isOn dom b) as [[|]|];
    try (rewrite Hrun; split; [not_caught|intros n []]).
  destruct (click dom b); rewrite Hrun; (split; [not_caught|]);
    intros n [<- | []]; reflexivity.
Qed.


End Outcome.

(** ** The script on the example pages *)

Section Examples.

Let run := @evaluateProbe asciiLowerCase.

Example run_pressed :
  run (staticDom pressedDocument)
  = (Normal (AlreadyOn (Some (js "Search the web"))), []).
Proof. reflexivity. Qed.

Example run_switch_off :
  run (staticDom switchOffDocument)
  = (Normal (ToggledOn (Some (js "Web search"))), [1]).
Proof. reflexivity. Qed.

Example run_plain : run (staticDom plainDocument) = (Normal NotFound, []).
Proof. reflexivity. Qed.

Example run_svg : run (staticDom svgToggleDocument) = (Normal NotFound, []).
Proof. reflexivity. Qed.

Example run_icon_button :
  run (staticDom iconButtonDocument) = (Normal (ToggledOn (Some [])), [0]).
Proof. reflexivity. Qed.

Example run_detached :
  run detachedDom
  = (Normal (Error (VString (js "Execution context was destroyed."))), []).
Proof. reflexivity. Qed.

Example run_blocked_click :
  run blockedClickDom = (Normal (Error (VString (js "blocked"))), [1]).
Proof. reflexivity. Qed.

Example normalizeText_example :
  @normalizeText asciiLowerCase (js "  Web-Search!! (beta) ") = js "web search beta".
Proof. reflexivity. Qed.

End Examples.

Lemma normalizeText_idempotent_witness :
  @LowerCaseKeepsPlain asciiLowerCase /\
  @normalizeText asciiLowerCase (@normalizeText asciiLowerCase (js "  Web-Search!! (beta) "))
  = @normalizeText asciiLowerCase (js "  Web-Search!! (beta) ").
Proof.
  split; [exact asciiLowerCase_keeps_plain|].
  apply (@normalizeText_idempotent asciiLowerCase).
  exact asciiLowerCase_keeps_plain.
Defined.

Lemma no_keyword_not_found_witness :
  @candidatesOf (staticDom plainDocument) [0; 1] /\
  @evaluateProbe asciiLowerCase (staticDom plainDocument) = (Normal NotFound, []).
Proof.
  split; [reflexivity|].
  apply (@no_keyword_not_found asciiLowerCase (staticDom plainDocument) [0; 1]).
  - exact asciiLowerCase_keeps_plain.
  - reflexivity.
  - intros c [<- | [<- | []]].
    + apply (keywordFree_by_test _ _ (js "send  ") asciiLowerCase_keeps_plain);
        reflexivity.
    + apply (keywordFree_by_test _ _ (js "attach  attach") asciiLowerCase_keeps_plain);
        reflexivity.
Defined.

Lemma pressed_first_match :
  @firstMatchingHTMLElement asciiLowerCase (staticDom pressedDocument) 1.
Proof.
  exists [1; 0], [], [0]. repeat split.
  - intros c [].
  - apply (keywordMatching_by_test _ _ (js "search search the web ")
             asciiLowerCase_keeps_plain); reflexivity.
Qed.

Lemma on_state_already_on_witness :
  exists label,
    @evaluateProbe asciiLowerCase (staticDom pressedDocument)
    = (Normal (AlreadyOn (Some label)), []).
Proof.
  apply (@on_state_already_on asciiLowerCase (staticDom pressedDocument) 1).
  - exact asciiLowerCase_keeps_plain.
  - exact pressed_first_match.
  - exists (Some (js "true")), None, None. repeat split. by left.
Defined.

Lemma switch_first_match :
  @firstMatchingHTMLElement asciiLowerCase (staticDom switchOffDocument) 1.
Proof.
  exists [0; 1], [0], []. repeat split.
  - intros c [<- | []]. right.
    apply (keywordFree_by_test _ _ (js "send  ") asciiLowerCase_keeps_plain);
      reflexivity.
  - apply (keywordMatching_by_test _ _ (js "web search  ")
             asciiLowerCase_keeps_plain); reflexivity.
Qed.

Lemma selects_first_matching_html_element_witness :
  @selectsBest asciiLowerCase (staticDom switchOffDocument) 1.
Proof.
  apply (@selects_first_matching_html_element asciiLowerCase
           (staticDom switchOffDocument) 1).
  - exact asciiLowerCase_keeps_plain.
  - exact switch_first_match.
Defined.


(** C1, as it was stated, fails on a page whose one candidate is
    [<svg data-testid="search-icon" aria-pressed="true">]: a keyword occurs
    in its haystack and it is on, but it is not an [HTMLElement], so the
    loop passes over it and the script returns [not-found]. *)
Lemma svg_candidate_is_not_already_on :
  ~ @AlreadyOnAtFirstKeywordCandidate asciiLowerCase (staticDom svgToggleDocument).
Proof.
  intros H. destruct (H 0) as (label & clicks & Hrun & _).
  - exists [0], [], []. repeat split.
    + intros c [].
    + apply (keywordMatching_by_test _ _ (js "  search icon")
               asciiLowerCase_keeps_plain); reflexivity.
  - exists (Some (js "true")), None, None. repeat split. by left.
  - discriminate Hrun.
Qed.

(** C5, as it was stated, fails on the same page: the first candidate with a
    keyword in its haystack is the [<svg>], and the loop does not end on
    it. *)
Lemma svg_candidate_is_not_selected :
  ~ @SelectsFirstKeywordCandidate asciiLowerCase (staticDom svgToggleDocument).
Proof.
  intros H. destruct (H 0) as (candidates & Hc & Hbest).
  - exists [0], [], []. repeat split.
    + intros c [].
    + apply (keywordMatching_by_test _ _ (js "  search icon")
               asciiLowerCase_keeps_plain); reflexivity.
  - injection Hc as <-. discriminate Hbest.
Qed.


(** ** [ensureSearchEnabled] *)

Section EnsureSearch.
Context {lower : CaseMapping}.




End EnsureSearch.

Example ensureSearchEnabled_missing_result :
  @ensureSearchEnabled asciiLowerCase (fun _ => Normal {| result := None |})
  = (Normal tt, [js "Search toggle error; continuing without forcing search."]).
Proof. reflexivity. Qed.

Example ensureSearchEnabled_malformed_result :
  @ensureSearchEnabled asciiLowerCase
    (fun _ => Normal {| result := Some {| value := VArray [VBool true; VNull] |} |})
  = (Normal tt, [js "Search toggle error; continuing without forcing search."]).
Proof. reflexivity. Qed.

Example ensureSearchEnabled_number_message :
  @ensureSearchEnabled asciiLowerCase
    (fun _ => Normal {| result :=
                          Some {| value := toValue (Error (VNumber ProbeInputs.fortyTwo)) |} |})
  = (Normal tt, [js "Search toggle error: 42; continuing without forcing search."]).
Proof. reflexivity. Qed.



(** ** The [oracle.browserQuery] tool *)

Section BrowserQuery.
Import BrowserQueryTool.

(** C9. When the browser query completes with [answerMarkdown] and
    [answerText] both empty, the handler returns a result whose text is
    [(no text output)]; when [answerMarkdown] is not empty, the text is
    [answerMarkdown], whatever [answerText] is. *)
Theorem browserQuery_text
    (env : Environment) (input : Input)
    (attached : list Attachment) (answer : BrowserRunResult) :
  collectAttachments env (files input) = Normal attached ->
  runBrowserMode env (runOptions input attached) = Normal answer ->
  (orElse (answerMarkdown answer) [] = [] -> answerText answer = [] ->
   browserQuery env input
   = Normal {| content := [TextContent (js "(no text output)")] |}) /\
  (forall markdown,
     answerMarkdown answer = Some markdown -> markdown <> [] ->
     browserQuery env input = Normal {| content := [TextContent markdown] |}).
Proof.
  intros Hfiles Hrun. unfold browserQuery. rewrite Hfiles. simpl.
  rewrite Hrun. simpl. split.
  - intros Hmd Htext. rewrite Htext.
    destruct (answerMarkdown answer) as [[|c md]|]; [reflexivity|discriminate|reflexivity].
  - intros markdown -> Hne. destruct markdown; [contradiction|reflexivity].
Qed.

Lemma browserQuery_text_witness :
  browserQuery emptyAnswerEnvironment summarizeInput
  = Normal {| content := [TextContent (js "(no text output)")] |}.
Proof.
  apply (proj1 (browserQuery_text emptyAnswerEnvironment summarizeInput []
                  {| answerText := []; answerMarkdown := None |} eq_refl eq_refl));
    reflexivity.
Defined.

End BrowserQuery.

(** ** The [session] command *)

Section SessionCommandFacts.
Import SessionCommand.
Context {World Command : Type}.
Variable opts : Command -> StatusOptions.

(** C10. When a session id is given (a non-empty string: the handler tests
    [sessionId] for truth) together with [--clear] or [--clean], the handler
    writes its error line, sets the exit code to 1 and returns; no
    dependency is called and the world they work on is as it was. *)
Theorem session_id_with_clear_is_rejected
    (sessionId : jsstring) (command : Command)
    (deps : @SessionCommandDependencies World Command) (p : Process World) :
  sessionId <> [] ->
  clear (opts command) = Some true \/ clean (opts command) = Some true ->
  handleSessionCommand opts (Some sessionId) command deps p
  = (Normal tt,
     {| world := world p;
        consoleLog := consoleLog p;
        consoleError :=
          consoleError p ++
          [js "Cannot combine a session ID with --clear. Remove the ID to delete cached sessions."];
        exitCode := Some 1%Z;
        calls := calls p |}).
Proof.
  intros Hid Hclear. unfold handleSessionCommand.
  assert (isSet (clear (opts command)) || isSet (clean (opts command)) = true) as ->.
  { destruct Hclear as [-> | ->]; [reflexivity|apply orb_true_r]. }
  destruct sessionId as [|c rest]; [contradiction|reflexivity].
Qed.

(** With [--clear] and no session id, the handler asks the dependency once,
    with the hours and the [--all] flag of the command line. *)
Lemma clear_calls_delete
    (command : Command) (deps : @SessionCommandDependencies World Command)
    (p : Process World) :
  isSet (clear (opts command)) || isSet (clean (opts command)) = true ->
  calls (handleSessionCommand opts None command deps p).2
  = calls p ++
    [CallDeleteSessionsOlderThan
       {| SessionManager.hours := hours (opts command);
          SessionManager.includeAll := all (opts command) |}].
Proof.
  intros Hclear. unfold handleSessionCommand. rewrite Hclear. simpl.
  unfold andThen, call.
  destruct (deleteSessionsOlderThan deps _ (world p)) as [[r|e] w]; reflexivity.
Qed.

End SessionCommandFacts.

Lemma session_id_with_clear_is_rejected_witness :
  SessionCommand.handleSessionCommand (fun o => o) (Some (js "abc123"))
    SessionCommand.clearOptions SessionCommand.idleDependencies
    SessionCommand.freshProcess
  = (Normal tt,
     {| SessionCommand.world := tt;
        SessionCommand.consoleLog := [];
        SessionCommand.consoleError :=
          [js "Cannot combine a session ID with --clear. Remove the ID to delete cached sessions."];
        SessionCommand.exitCode := Some 1%Z;
        SessionCommand.calls := [] |}).
Proof.
  apply (session_id_with_clear_is_rejected (fun o => o) (js "abc123")
           SessionCommand.clearOptions SessionCommand.idleDependencies
           SessionCommand.freshProcess).
  - discriminate.
  - by left.
Defined.

(** ** The session store *)

Section SessionStore.
Import SessionManager.

(** What stays in the store when not everything is removed. *)
Lemma kept_lookup (now h : Z) (store : gmap jsstring BrowserSession)
    (id : jsstring) (s : BrowserSession) :
  (deleteSessionsOlderThan now {| hours := h; includeAll := false |} store).2 !! id = Some s
  <-> store !! id = Some s /\ ~ olderThan now h s.
Proof.
  simpl. rewrite map_lookup_filter_Some. unfold expired. simpl. split.
  - intros [Hs Hkeep]. split; [exact Hs|]. intros Hold. apply Hkeep. by right.
  - intros [Hs Hnew]. split; [exact Hs|].
    intros [Hall | Hold]; [discriminate|contradiction].
Qed.

Lemma removed_lookup (now h : Z) (store : gmap jsstring BrowserSession)
    (id : jsstring) (s : BrowserSession) :
  store !! id = Some s -> olderThan now h s ->
  (deleteSessionsOlderThan now {| hours := h; includeAll := false |} store).2 !! id = None.
Proof.
  intros Hs Hold. simpl. apply map_lookup_filter_None. right.
  intros s' Hs' Hkeep. rewrite Hs in Hs'. injection Hs' as <-.
  apply Hkeep. by right.
Qed.

Lemma removed_count (now : Z) (options : DeleteOptions)
    (store : gmap jsstring BrowserSession) :
  (Z.of_nat (size (filter (expired now options) store))
   = Z.of_nat (size store)
     - Z.of_nat (size (filter (fun entry => ¬ expired now options entry) store)))%Z.
Proof.
  rewrite <- (map_filter_union_complement (expired now options) store) at 2.
  rewrite map_size_disj_union by apply map_disjoint_filter_complement. lia.
Qed.

(** C7. [deleteSessionsOlderThan] with [includeAll: false] keeps exactly the
    sessions that were not last used more than [h] hours ago, each as it
    was, removes the others and returns how many it removed; with
    [includeAll: true] it removes every session, whatever [h] is. *)
Theorem deleteSessionsOlderThan_removes_old
    (now h : Z) (store : gmap jsstring BrowserSession) :
  (let run := deleteSessionsOlderThan now {| hours := h; includeAll := false |} store in
   (forall id s, run.2 !! id = Some s <-> store !! id = Some s /\ ~ olderThan now h s) /\
   (forall id s, store !! id = Some s -> olderThan now h s -> run.2 !! id = None) /\
   deleted run.1 = Z.of_nat (size (filter (fun entry => olderThan now h entry.2) store)) /\
   deleted run.1 = (Z.of_nat (size store) - Z.of_nat (size run.2))%Z) /\
  (let run := deleteSessionsOlderThan now {| hours := h; includeAll := true |} store in
   run.2 = ∅ /\ deleted run.1 = Z.of_nat (size store)).
Proof.
  split.
  - split; [|split; [|split]].
    + apply kept_lookup.
    + apply removed_lookup.
    + simpl. f_equal. f_equal. apply map_filter_ext. intros id s _.
      unfold expired. simpl.
      split; [intros [Hall | Hold]; [discriminate|exact Hold]|by right].
    + apply removed_count.
  - simpl. split.
    + apply map_empty_filter. intros id s _ Hkeep. apply Hkeep. by left.
    + f_equal. f_equal. apply map_filter_id. intros id s _. by left.
Qed.

(** The scenario of the specification: of a session 48 hours old and one an
    hour old, a clean-up at 24 hours removes the first and keeps the
    second. *)
Example deleteSessionsOlderThan_scenario (now : Z) :
  let run := deleteSessionsOlderThan now {| hours := 24; includeAll := false |}
               (scenarioStore now) in
  run.2 !! js "recent" = Some (recentSession now) /\
  run.2 !! js "stale" = None.
Proof.
  split.
  - apply kept_lookup. split; [reflexivity|].
    unfold olderThan, recentSession, MS_PER_HOUR. simpl. lia.
  - apply (removed_lookup _ _ _ _ (staleSession now)); [reflexivity|].
    unfold olderThan, staleSession, MS_PER_HOUR. simpl. lia.
Qed.

End SessionStore.

(** * Further properties *)

(** ** The shape of normalized text *)

Section NormalizedShape.

Lemma tidy_no_double_space (before after : jsstring) :
  forall b, tidy b (before ++ SPACE :: SPACE :: after) = false.
Proof.
  induction before as [|c before IH]; intros b; simpl.
  - by rewrite andb_false_r.
  - destruct (c =? SPACE)%N; rewrite IH; apply andb_false_r.
Qed.

(** What [trimEnd] leaves does not end in white space. *)
Lemma trimEnd_last (s : jsstring) :
  forall front c, trimEnd s = front ++ [c] -> isWhiteSpace c = false.
Proof.
  induction s as [|k s IH]; intros front c H; simpl in H.
  - by destruct front.
  - destruct (trimEnd s) as [|n kept] eqn:E.
    + destruct (isWhiteSpace k) eqn:W; [by destruct front|].
      destruct front as [|f front]; [by injection H as <-|].
      injection H as _ H. by destruct front.
    + destruct front as [|f front]; [discriminate|].
      injection H as _ H. by apply (IH front).
Qed.

Lemma whitespace_not_alnum (c : N) : isWhiteSpace c = true -> isAlnum c = false.
Proof.
  intros W. destruct (isAlnum c) eqn:A; [|reflexivity].
  rewrite (isAlnum_not_whitespace c A) in W. discriminate.
Qed.

(** Replacing runs of a class without letters or digits in it keeps the
    letters and digits. *)
Lemma replaceRuns_keeps_alnum (inClass : N -> bool) (s : jsstring) :
  (forall c, inClass c = true -> isAlnum c = false) ->
  forall b, List.filter isAlnum (replaceRuns inClass b s) = List.filter isAlnum s.
Proof.
  intros Hclass. induction s as [|c s IH]; intros b; [reflexivity|].
  simpl. destruct (inClass c) eqn:E.
  - rewrite (Hclass c E). destruct b; simpl; apply IH.
  - simpl. by rewrite IH.
Qed.

Lemma trimStart_keeps_alnum (s : jsstring) :
  List.filter isAlnum (trimStart s) = List.filter isAlnum s.
Proof.
  induction s as [|c s IH]; [reflexivity|]. simpl.
  destruct (isWhiteSpace c) eqn:W; [|reflexivity].
  by rewrite (whitespace_not_alnum c W).
Qed.

Lemma trimEnd_keeps_alnum (s : jsstring) :
  List.filter isAlnum (trimEnd s) = List.filter isAlnum s.
Proof.
  induction s as [|c s IH]; [reflexivity|]. cbn [trimEnd].
  destruct (trimEnd s) as [|k kept].
  - cbn [List.filter] in *. rewrite <- IH.
    destruct (isWhiteSpace c) eqn:W; [by rewrite (whitespace_not_alnum c W)|].
    reflexivity.
  - change (List.filter isAlnum (c :: k :: kept))
      with (if isAlnum c then c :: List.filter isAlnum (k :: kept)
            else List.filter isAlnum (k :: kept)).
    rewrite IH. reflexivity.
Qed.

Context {lower : CaseMapping}.

Lemma normalizeText_startsClean (s : jsstring) : startsClean (normalizeText s).
Proof.
  rewrite <- normalizeText_trimmed. unfold trim.
  apply trimEnd_startsClean, trimStart_startsClean.
Qed.

(** X1. Whatever the string and whatever the case mapping, the normalized
    text is made of lower-case Basic Latin letters, digits and spaces only,
    has no two spaces in a row, and neither starts nor ends with a space. *)
Theorem normalizeText_shape (s : jsstring) :
  Forall (fun c => isAlnum c = true \/ c = SPACE) (normalizeText s) /\
  (forall before after, normalizeText s <> before ++ SPACE :: SPACE :: after) /\
  (forall rest, normalizeText s <> SPACE :: rest) /\
  (forall front, normalizeText s <> front ++ [SPACE]).
Proof.
  pose proof (normalizeText_tidy s) as Ht.
  split; [eapply tidy_plain, Ht|]. split; [|split].
  - intros before after E. rewrite E, tidy_no_double_space in Ht. discriminate.
  - intros rest E. pose proof (normalizeText_startsClean s) as Hc.
    rewrite E in Hc. discriminate Hc.
  - intros front E. rewrite <- normalizeText_trimmed in E. unfold trim in E.
    apply trimEnd_last in E. discriminate E.
Qed.

Lemma normalizeText_filter (s : jsstring) :
  s <> [] ->
  List.filter isAlnum (normalizeText s) = List.filter isAlnum (toLowerCase s).
Proof.
  intros Hs. unfold normalizeText. destruct s as [|c s]; [contradiction|].
  cbn [truthy negb]. unfold trim, replaceAllRuns.
  rewrite trimEnd_keeps_alnum, trimStart_keeps_alnum.
  rewrite (replaceRuns_keeps_alnum isWhiteSpace) by apply whitespace_not_alnum.
  apply replaceRuns_keeps_alnum. intros k Hk. by destruct (isAlnum k).
Qed.

(** X2. Normalizing a non-empty string neither drops nor reorders a letter
    or digit of the lower-cased string: only what lies between them changes.
    So the normalized text is empty exactly when the lower-cased string has
    no letter or digit in it. *)
Theorem normalizeText_keeps_letters_and_digits (s : jsstring) :
  s <> [] ->
  List.filter isAlnum (normalizeText s) = List.filter isAlnum (toLowerCase s) /\
  (normalizeText s = [] <-> List.filter isAlnum (toLowerCase s) = []).
Proof.
  intros Hs. pose proof (normalizeText_filter s Hs) as Hf.
  split; [exact Hf|]. rewrite <- Hf. split; [by intros ->|].
  intros He. pose proof (normalizeText_tidy s) as Ht.
  pose proof (normalizeText_startsClean s) as Hc.
  destruct (normalizeText s) as [|c rest]; [reflexivity|].
  simpl in Hc, Ht, He. destruct (c =? SPACE)%N eqn:E.
  - apply N.eqb_eq in E. subst c. discriminate Hc.
  - apply andb_true_iff in Ht as [A _]. rewrite A in He. discriminate He.
Qed.

End NormalizedShape.

Lemma normalizeText_keeps_letters_and_digits_witness :
  List.filter isAlnum (@normalizeText asciiLowerCase (js " -- Web_Search 2! "))
  = js "websearch2".
Proof.
  apply (proj1 (@normalizeText_keeps_letters_and_digits asciiLowerCase
                  (js " -- Web_Search 2! ") ltac:(discriminate))).
Defined.

(** ** What the script does to the page *)

Section ProbeConduct.
Context {lower : CaseMapping}.

(** What the loop ends on is a candidate, an [HTMLElement], and passed the
    loop's test. *)
Lemma findBest_found (dom : Dom) (candidates : list Node) (b : Node) :
  findBest dom candidates = Normal (Some b) ->
  In b candidates /\ instanceofHTMLElement dom b = true /\
  exists h, haystackOf dom b = Normal h /\ matchesKeywords h = true.
Proof.
  induction candidates as [|node rest IH]; intros H; simpl in H; [discriminate|].
  destruct (instanceofHTMLElement dom node) eqn:Hhtml; simpl in H.
  - destruct (haystackOf dom node) as [h|e] eqn:Hh; simpl in H; [|discriminate].
    destruct (truthy h); simpl in H.
    + destruct (matchesKeywords h) eqn:M.
      * injection H as <-. split; [by left|]. split; [exact Hhtml|]. eauto.
      * destruct (IH H) as (Hin & Hb). split; [by right|exact Hb].
    + destruct (IH H) as (Hin & Hb). split; [by right|exact Hb].
  - destruct (IH H) as (Hin & Hb). split; [by right|exact Hb].
Qed.

Lemma collectCandidates_throw (dom : Dom) (before after : list jsstring)
    (selector : jsstring) (e : Thrown) :
  (forall s, In s before -> exists found, querySelectorAll dom s = Normal found) ->
  querySelectorAll dom selector = Throw e ->
  forall start, collectCandidates dom (before ++ selector :: after) start = Throw e.
Proof.
  intros Hbefore Hthrow. induction before as [|s before IH]; intros start; simpl.
  - by rewrite Hthrow.
  - destruct (Hbefore s) as [found Hs]; [by left|]. rewrite Hs. simpl.
    apply IH. intros k Hk. apply Hbefore. by right.
Qed.

Lemma getLabel_trimmed (dom : Dom) (el : Node) (label : jsstring) :
  getLabel dom el = Normal label -> trim label = label.
Proof.
  unfold getLabel. destruct (instanceofHTMLElement dom el); simpl.
  - destruct (getAttribute dom el (js "aria-label")); simpl; [|discriminate].
    destruct (getAttribute dom el (js "data-testid")); simpl; [|discriminate].
    destruct (textContent dom el); simpl; [|discriminate].
    intros [= <-]. apply trim_idempotent.
  - by intros [= <-].
Qed.

(** X3. A keyword in any one of the three normalized fields is enough: if it
    occurs in the element's normalized text, or in its normalized
    [aria-label], or in its normalized [data-testid], the element passes
    the loop's test. *)
Theorem keyword_in_one_field_matches
    (dom : Dom) (node : Node) (t a d : option jsstring) :
  LowerCaseKeepsPlain ->
  textContent dom node = Normal t ->
  getAttribute dom node (js "aria-label") = Normal a ->
  getAttribute dom node (js "data-testid") = Normal d ->
  containsKeyword (normalizeText (orElse t [])) \/
  containsKeyword (normalizeText (orElse a [])) \/
  containsKeyword (normalizeText (orElse d [])) ->
  exists h, haystackOf dom node = Normal h /\ matchesKeywords h = true.
Proof.
  intros Hlower Ht Ha Hd Hfield. eexists. split.
  - unfold haystackOf. rewrite Ht, Ha, Hd. reflexivity.
  - apply (matchesKeywords_spec Hlower).
    destruct Hfield as [(kw & Hkw & p & q & E) | [(kw & Hkw & p & q & E) | (kw & Hkw & p & q & E)]];
      exists kw; (split; [exact Hkw|]); rewrite E.
    + exists p, (q ++ js " " ++ normalizeText (orElse a []) ++ js " "
                   ++ normalizeText (orElse d [])).
      by rewrite <- !app_assoc.
    + exists (normalizeText (orElse t []) ++ js " " ++ p),
             (q ++ js " " ++ normalizeText (orElse d [])).
      by rewrite <- !app_assoc.
    + exists (normalizeText (orElse t []) ++ js " "
                ++ normalizeText (orElse a []) ++ js " " ++ p), q.
      by rewrite <- !app_assoc.
Qed.

(** X4. On any page the script calls [click()] at most once.  When it
    returns [already-on] or [not-found] it has clicked nothing, and when it
    returns [toggled-on] it has clicked exactly one element. *)
Theorem probe_clicks_at_most_once (dom : Dom) :
  (length (snd (evaluateProbe dom)) <= 1)%nat /\
  (forall label, fst (evaluateProbe dom) = Normal (AlreadyOn label) ->
     snd (evaluateProbe dom) = []) /\
  (fst (evaluateProbe dom) = Normal NotFound -> snd (evaluateProbe dom) = []) /\
  (forall label, fst (evaluateProbe dom) = Normal (ToggledOn label) ->
     exists b, snd (evaluateProbe dom) = [b]).
Proof.
  pose proof (evaluateProbe_steps dom) as Hrun.
  destruct (collectCandidates dom SELECTORS []) as [candidates|e].
  2: { caught_cases; rewrite Hrun; simpl; repeat split; (lia || discriminate). }
  destruct (findBest dom candidates) as [[best|]|e].
  2, 3: caught_cases; rewrite Hrun; simpl; repeat split; (lia || discriminate).
  destruct (getLabel dom best) as [label|e].
  2: { caught_cases; rewrite Hrun; simpl; repeat split; (lia || discriminate). }
  destruct (isOn dom best) as [[|]|e].
  1, 3: caught_cases; rewrite Hrun; simpl; repeat split; (lia || discriminate).
  destruct (click dom best); caught_cases; rewrite Hrun; simpl;
    (split; [lia|]); (split; [discriminate|]); (split; [discriminate|]);
    intros; eauto.
Qed.

(** X5. An element the script clicks is always one of the candidates, an
    [HTMLElement], with a keyword in its haystack, and not in the on
    state: the script never clicks a control that already reads as on. *)
Theorem probe_clicks_only_matching_off_element (dom : Dom) (n : Node) :
  LowerCaseKeepsPlain ->
  In n (snd (evaluateProbe dom)) ->
  exists candidates,
    candidatesOf dom candidates /\ In n candidates /\
    instanceofHTMLElement dom n = true /\
    keywordMatching dom n /\ ~ onState dom n.
Proof.
  intros Hlower. rewrite evaluateProbe_steps.
  destruct (collectCandidates dom SELECTORS []) as [candidates|e] eqn:Hc;
    [|intros []].
  destruct (findBest dom candidates) as [[best|]|e] eqn:Hbest; try (intros []).
  apply findBest_found in Hbest as (Hin & Hhtml & h & Hh & M).
  destruct (getLabel dom best) as [label|e]; [|intros []].
  destruct (isOn dom best) as [[|]|e] eqn:Hon; try (intros []).
  assert (n = best -> exists cs,
            candidatesOf dom cs /\ In n cs /\ instanceofHTMLElement dom n = true /\
            keywordMatching dom n /\ ~ onState dom n) as Hbest.
  { intros ->. exists candidates. repeat split; try assumption.
    - by apply (keywordMatching_by_test dom best h).
    - intros Hstate. rewrite (isOn_on _ _ Hhtml Hstate) in Hon. discriminate. }
  destruct (click dom best); intros [<- | []]; by apply Hbest.
Qed.

(** X6. When [click()] itself throws, the script ends as its [catch]
    clause does: it returns [error] with the message that the clause
    extracts, or, where the extraction throws, it throws that.  Either way
    the record shows that the element was clicked: an [error] result does
    not mean that the page was left alone. *)
Theorem click_failure_is_reported (dom : Dom) (b : Node) (e : Thrown) :
  LowerCaseKeepsPlain ->
  firstMatchingHTMLElement dom b -> offState dom b ->
  click dom b = Throw e ->
  evaluateProbe dom = (caught e, [b]) /\
  (forall message, errorMessage e = Normal message ->
     evaluateProbe dom = (Normal (Error message), [b])) /\
  (forall raised, errorMessage e = Throw raised ->
     evaluateProbe dom = (Throw raised, [b])).
Proof.
  intros Hlower (candidates & before & after & Hc & -> & Hbefore & Hhtml & Hkw)
         Hoff Hclick.
  pose proof Hkw as [h [Hh _]].
  destruct (haystack_labelSources _ _ _ Hh) as (a & t & d & Hsrc).
  assert (evaluateProbe dom = (caught e, [b])) as Hrun.
  { rewrite evaluateProbe_steps, Hc.
    rewrite (findBest_first Hlower) by assumption.
    rewrite (getLabel_spec _ _ _ _ _ Hhtml Hsrc).
    rewrite (isOn_off _ _ Hlower Hhtml Hoff).
    by rewrite Hclick. }
  rewrite Hrun. unfold caught.
  split; [reflexivity|]. split; by intros ? ->.
Qed.

(** X7. When one of the five selector queries throws (the ones before it
    having returned), the script ends as its [catch] clause does: it
    returns [error] with the message that the clause extracts, or, where
    the extraction throws, it throws that.  Either way it has clicked
    nothing. *)
Theorem query_failure_is_reported
    (dom : Dom) (before after : list jsstring) (selector : jsstring) (e : Thrown) :
  SELECTORS = before ++ selector :: after ->
  (forall s, In s before -> exists found, querySelectorAll dom s = Normal found) ->
  querySelectorAll dom selector = Throw e ->
  evaluateProbe dom = (caught e, []) /\
  (forall message, errorMessage e = Normal message ->
     evaluateProbe dom = (Normal (Error message), [])) /\
  (forall raised, errorMessage e = Throw raised ->
     evaluateProbe dom = (Throw raised, [])).
Proof.
  intros Hsel Hbefore Hthrow.
  assert (evaluateProbe dom = (caught e, [])) as Hrun.
  { rewrite evaluateProbe_steps, Hsel.
    by rewrite (collectCandidates_throw dom before after selector e). }
  rewrite Hrun. unfold caught. split; [reflexivity|]. split; by intros ? ->.
Qed.

(** X8. A label the script returns, with [already-on] or with
    [toggled-on], is always a string with no white space at either end. *)
Theorem probe_label_is_trimmed (dom : Dom) (label : option jsstring)
    (clicks : list Node) :
  evaluateProbe dom = (Normal (AlreadyOn label), clicks) \/
  evaluateProbe dom = (Normal (ToggledOn label), clicks) ->
  exists l, label = Some l /\ trim l = l.
Proof.
  rewrite evaluateProbe_steps.
  destruct (collectCandidates dom SELECTORS []) as [candidates|e];
    [|caught_cases; intros [H | H]; discriminate H].
  destruct (findBest dom candidates) as [[best|]|e];
    try (caught_cases; intros [H | H]; discriminate H).
  destruct (getLabel dom best) as [l|e] eqn:Hl;
    [|caught_cases; intros [H | H]; discriminate H].
  apply getLabel_trimmed in Hl.
  destruct (isOn dom best) as [[|]|e];
    try (caught_cases; intros [H | H]; try discriminate H; injection H as <- _; eauto).
  destruct (click dom best); caught_cases;
    intros [H | H]; try discriminate H; injection H as <- _; eauto.
Qed.

End ProbeConduct.

Lemma keyword_in_one_field_matches_witness :
  exists h,
    @haystackOf asciiLowerCase (staticDom pressedDocument) 1 = Normal h /\
    @matchesKeywords asciiLowerCase h = true.
Proof.
  apply (@keyword_in_one_field_matches asciiLowerCase (staticDom pressedDocument) 1
           (Some (js "Search")) (Some (js "Search the web")) None).
  - exact asciiLowerCase_keeps_plain.
  - reflexivity.
  - reflexivity.
  - reflexivity.
  - left. exists (js "search"). split; [by left|]. by exists [], [].
Defined.

Lemma probe_clicks_only_matching_off_element_witness :
  exists candidates,
    @candidatesOf (staticDom switchOffDocument) candidates /\ In 1 candidates /\
    instanceofHTMLElement (staticDom switchOffDocument) 1 = true /\
    @keywordMatching asciiLowerCase (staticDom switchOffDocument) 1 /\
    ~ @onState asciiLowerCase (staticDom switchOffDocument) 1.
Proof.
  apply (@probe_clicks_only_matching_off_element asciiLowerCase
           (staticDom switchOffDocument) 1).
  - exact asciiLowerCase_keeps_plain.
  - by left.
Defined.

Lemma blocked_first_match :
  @firstMatchingHTMLElement asciiLowerCase blockedClickDom 1.
Proof.
  exists [0; 1], [0], []. repeat split.
  - intros c [<- | []]. right.
    apply (keywordFree_by_test _ _ (js "send  ") asciiLowerCase_keeps_plain);
      reflexivity.
  - apply (keywordMatching_by_test _ _ (js "web search  ")
             asciiLowerCase_keeps_plain); reflexivity.
Qed.

Lemma click_failure_is_reported_witness :
  @evaluateProbe asciiLowerCase blockedClickDom
  = (Normal (Error (VString (js "blocked"))), [1]).
Proof.
  refine (proj1 (@click_failure_is_reported asciiLowerCase blockedClickDom 1
                   (ThrownValue (js "blocked")) _ _ _ _)).
  - exact asciiLowerCase_keeps_plain.
  - exact blocked_first_match.
  - exists None, None, (Some (js "unchecked")). repeat split; try discriminate.
    intros (s & [= <-] & Hin). vm_compute in Hin. intuition discriminate.
  - reflexivity.
Defined.

Lemma query_failure_is_reported_witness :
  @evaluateProbe asciiLowerCase detachedDom
  = (Normal (Error (VString (js "Execution context was destroyed."))), []).
Proof.
  refine (proj1 (@query_failure_is_reported asciiLowerCase detachedDom []
                   (tl SELECTORS) (js "button")
                   (ThrownError (js "Execution context was destroyed.")) _ _ _)).
  - reflexivity.
  - intros s [].
  - reflexivity.
Defined.

Lemma probe_label_is_trimmed_witness :
  exists l, Some (js "Search the web") = Some l /\ trim l = l.
Proof.
  apply (@probe_label_is_trimmed asciiLowerCase (staticDom pressedDocument)
           (Some (js "Search the web")) []).
  left. reflexivity.
Defined.

(** ** The paths of the [session] command *)

Section SessionCommandPaths.
Import SessionCommand.
Context {World Command : Type}.
Variable opts : Command -> StatusOptions.

(** X10. The old positional form, [session clear] or [session clean] without
    the [--clear] flag, is rejected: one line on [console.error], exit code
    1, and no dependency is called, so nothing is listed, attached or
    deleted. *)
Theorem positional_clear_is_rejected
    (sessionId : jsstring) (command : Command)
    (deps : @SessionCommandDependencies World Command) (p : Process World) :
  isSet (clear (opts command)) || isSet (clean (opts command)) = false ->
  sessionId = js "clear" \/ sessionId = js "clean" ->
  handleSessionCommand opts (Some sessionId) command deps p
  = (Normal tt,
     {| world := world p;
        consoleLog := consoleLog p;
        consoleError :=
          consoleError p ++
          [js "Session cleanup now uses --clear. Run " ++ QUOTE
             ++ js "oracle session --clear --hours <n>" ++ QUOTE ++ js " instead."];
        exitCode := Some 1%Z;
        calls := calls p |}).
Proof.
  intros Hclear Hid. unfold handleSessionCommand. rewrite Hclear.
  destruct Hid as [-> | ->]; reflexivity.
Qed.

(** X11. Without a session id and without [--clear], the handler lists:
    [showStatus] is its only call, with the limit of the command line,
    [includeAll] as [--all], and a window of [Infinity] hours under [--all]
    and of [--hours] otherwise; whether examples are shown is what
    [usesDefaultStatusFilters] says.  The handler prints nothing itself and
    leaves the exit code alone. *)
Theorem no_session_id_lists
    (sessionId : option jsstring) (command : Command)
    (deps : @SessionCommandDependencies World Command) (p : Process World) :
  isSet (clear (opts command)) || isSet (clean (opts command)) = false ->
  hasSessionId sessionId = false ->
  let run := handleSessionCommand opts sessionId command deps p in
  exists options,
    calls run.2 = calls p ++ [CallShowStatus options] /\
    showHours options
      = (if all (opts command) then Infinity else Hours (hours (opts command))) /\
    showIncludeAll options = all (opts command) /\
    showLimit options = limit (opts command) /\
    showExamples options = usesDefaultStatusFilters deps command /\
    (run.1, world run.2) = showStatus deps options (world p) /\
    consoleLog run.2 = consoleLog p /\
    consoleError run.2 = consoleError p /\
    exitCode run.2 = exitCode p.
Proof.
  intros Hclear Hid run. subst run. unfold handleSessionCommand.
  rewrite Hclear, Hid.
  assert (sessionIdIs sessionId (js "clear") || sessionIdIs sessionId (js "clean")
          = false) as ->.
  { destruct sessionId as [[|c s]|]; [reflexivity|discriminate Hid|reflexivity]. }
  cbn [negb].
  exists {| showHours := if all (opts command) then Infinity
                         else Hours (hours (opts command));
            showIncludeAll := all (opts command);
            showLimit := limit (opts command);
            showExamples := usesDefaultStatusFilters deps command |}.
  unfold call.
  destruct (showStatus deps _ (world p)) as [outcome w].
  cbn [fst snd calls world consoleLog consoleError exitCode].
  repeat split.
Qed.

(** X12. With a session id that is not [clear] or [clean], and without
    [--clear], the handler attaches: [attachSession] is its only call, with
    exactly that id, and what it does (a failure included) is what the
    handler does.  Nothing is printed and the exit code is left alone. *)
Theorem session_id_attaches
    (sessionId : jsstring) (command : Command)
    (deps : @SessionCommandDependencies World Command) (p : Process World) :
  isSet (clear (opts command)) || isSet (clean (opts command)) = false ->
  sessionId <> [] -> sessionId <> js "clear" -> sessionId <> js "clean" ->
  let run := handleSessionCommand opts (Some sessionId) command deps p in
  calls run.2 = calls p ++ [CallAttachSession sessionId] /\
  (run.1, world run.2) = attachSession deps sessionId (world p) /\
  consoleLog run.2 = consoleLog p /\
  consoleError run.2 = consoleError p /\
  exitCode run.2 = exitCode p.
Proof.
  intros Hclear Hid Hc1 Hc2 run. subst run. unfold handleSessionCommand.
  rewrite Hclear. cbn [sessionIdIs hasSessionId sessionIdText].
  unfold strictEq. rewrite !bool_decide_eq_false_2 by assumption.
  destruct sessionId as [|c s]; [contradiction|]. cbn [truthy negb orb].
  unfold call. destruct (attachSession deps _ (world p)) as [outcome w].
  cbn [fst snd calls world consoleLog consoleError exitCode].
  repeat split.
Qed.

(** X13. With [--clear] (or [--clean]) and no session id, when the hours
    of the command line are a safe integer and the clean-up returns a
    count that is one too, the handler prints one line to [console.log]: the
    count, [session] for exactly one and [sessions] otherwise, and the
    scope, which is all stored sessions under [--all] and the hours
    otherwise.  The clean-up was its only call, with the hours and the
    [--all] flag of the command line, and the exit code is left alone. *)
Theorem clear_reports_count
    (sessionId : option jsstring) (command : Command)
    (deps : @SessionCommandDependencies World Command) (p : Process World)
    (n : Z) (w : World) :
  isSet (clear (opts command)) || isSet (clean (opts command)) = true ->
  hasSessionId sessionId = false ->
  safeInteger (hours (opts command)) -> safeInteger n ->
  let options :=
    {| SessionManager.hours := hours (opts command);
       SessionManager.includeAll := all (opts command) |} in
  deleteSessionsOlderThan deps options (world p)
    = (Normal {| SessionManager.deleted := n |}, w) ->
  handleSessionCommand opts sessionId command deps p
  = (Normal tt,
     {| world := w;
        consoleLog :=
          consoleLog p ++
          [js "Deleted " ++ numberToString n ++ js " "
             ++ (if (n =? 1)%Z then js "session" else js "sessions")
             ++ js " ("
             ++ (if all (opts command) then js "all stored sessions"
                 else js "sessions older than "
                        ++ numberToString (hours (opts command)) ++ js "h")
             ++ js ")."];
        consoleError := consoleError p;
        exitCode := exitCode p;
        calls := calls p ++ [CallDeleteSessionsOlderThan options] |}).
Proof.
  intros Hclear Hid _ _ options Hdelete. unfold handleSessionCommand.
  rewrite Hclear, Hid. unfold andThen, call. fold options. rewrite Hdelete.
  reflexivity.
Qed.

(** X14. When the clean-up fails, the handler fails with the same error: no
    line is printed, neither of success nor of failure, and the exit code
    is not set. *)
Theorem clear_failure_propagates
    (sessionId : option jsstring) (command : Command)
    (deps : @SessionCommandDependencies World Command) (p : Process World)
    (e : Thrown) (w : World) :
  isSet (clear (opts command)) || isSet (clean (opts command)) = true ->
  hasSessionId sessionId = false ->
  deleteSessionsOlderThan deps
    {| SessionManager.hours := hours (opts command);
       SessionManager.includeAll := all (opts command) |} (world p)
    = (Throw e, w) ->
  let run := handleSessionCommand opts sessionId command deps p in
  run.1 = Throw e /\
  consoleLog run.2 = consoleLog p /\
  consoleError run.2 = consoleError p /\
  exitCode run.2 = exitCode p.
Proof.
  intros Hclear Hid Hdelete run. subst run. unfold handleSessionCommand.
  rewrite Hclear, Hid. unfold andThen, call. rewrite Hdelete.
  repeat split.
Qed.

(** The handler either rejects the command line or makes one call. *)
Lemma handleSessionCommand_outcomes
    (sessionId : option jsstring) (command : Command)
    (deps : @SessionCommandDependencies World Command) (p : Process World) :
  let run := handleSessionCommand opts sessionId command deps p in
  let requested := isSet (clear (opts command)) || isSet (clean (opts command)) in
  (run.1 = Normal tt /\ world run.2 = world p /\ calls run.2 = calls p /\
   exitCode run.2 = Some 1%Z /\ consoleLog run.2 = consoleLog p /\
   exists line, consoleError run.2 = consoleError p ++ [line]) \/
  (exists what,
     calls run.2 = calls p ++ [what] /\
     exitCode run.2 = exitCode p /\ consoleError run.2 = consoleError p /\
     match what with
     | CallDeleteSessionsOlderThan options =>
         requested = true /\ hasSessionId sessionId = false /\
         options = {| SessionManager.hours := hours (opts command);
                      SessionManager.includeAll := all (opts command) |}
     | CallShowStatus _ => requested = false /\ hasSessionId sessionId = false
     | CallAttachSession id =>
         requested = false /\ sessionId = Some id /\ id <> []
     end).
Proof.
  intros run requested. subst run requested. unfold handleSessionCommand.
  destruct (isSet (clear (opts command)) || isSet (clean (opts command))).
  - destruct (hasSessionId sessionId) eqn:Hid.
    + left. repeat split. eauto.
    + right. unfold andThen, call.
      destruct (deleteSessionsOlderThan deps _ (world p)) as [[r|e] w];
        eexists; simpl; repeat split.
  - destruct (sessionIdIs sessionId (js "clear") || sessionIdIs sessionId (js "clean")).
    + left. repeat split. eauto.
    + destruct (hasSessionId sessionId) eqn:Hid; cbn [negb]; right; unfold call.
      * destruct sessionId as [id|]; [|discriminate Hid].
        destruct (attachSession deps _ (world p)) as [outcome w].
        eexists. simpl. repeat split. by intros ->.
      * destruct (showStatus deps _ (world p)) as [outcome w].
        eexists. simpl. repeat split.
Qed.

(** X15. Stored sessions are only ever deleted on request: if the handler
    makes a call of [deleteSessionsOlderThan] that was not made before, then [--clear] or [--clean] was given
    and no session id was, and the call carries the hours and the [--all]
    flag of the command line. *)
Theorem deletion_only_on_request
    (sessionId : option jsstring) (command : Command)
    (deps : @SessionCommandDependencies World Command) (p : Process World)
    (options : SessionManager.DeleteOptions) :
  ~ In (CallDeleteSessionsOlderThan options) (calls p) ->
  In (CallDeleteSessionsOlderThan options)
     (calls (handleSessionCommand opts sessionId command deps p).2) ->
  isSet (clear (opts command)) || isSet (clean (opts command)) = true /\
  hasSessionId sessionId = false /\
  options = {| SessionManager.hours := hours (opts command);
               SessionManager.includeAll := all (opts command) |}.
Proof.
  intros Hfresh Hin.
  destruct (handleSessionCommand_outcomes sessionId command deps p)
    as [(_ & _ & Hcalls & _) | (what & Hcalls & _ & _ & Hwhat)];
    rewrite Hcalls in Hin.
  - contradiction.
  - apply in_app_or in Hin as [Hin | [-> | []]]; [contradiction|].
    destruct Hwhat as (? & ? & ->). by repeat split.
Qed.

(** X16. Every run of the handler with a session id, or with [--clear] or
    [--clean], is one of two kinds; these are the runs that do not list,
    and only a listing consults [usesDefaultStatusFilters].  Either the
    run rejects the command line: it returns, with one more line on
    [console.error], exit code 1, no dependency called and their world as
    it was.  Or it makes exactly one call on a dependency, of
    [deleteSessionsOlderThan] or of [attachSession], writes nothing to
    [console.error] and leaves the exit code alone. *)
Theorem handler_rejects_or_calls_once
    (sessionId : option jsstring) (command : Command)
    (deps : @SessionCommandDependencies World Command) (p : Process World) :
  hasSessionId sessionId = true \/
  isSet (clear (opts command)) || isSet (clean (opts command)) = true ->
  let run := handleSessionCommand opts sessionId command deps p in
  (run.1 = Normal tt /\ world run.2 = world p /\ calls run.2 = calls p /\
   exitCode run.2 = Some 1%Z /\ consoleLog run.2 = consoleLog p /\
   exists line, consoleError run.2 = consoleError p ++ [line]) \/
  (exists what,
     calls run.2 = calls p ++ [what] /\
     exitCode run.2 = exitCode p /\ consoleError run.2 = consoleError p /\
     ((exists options, what = CallDeleteSessionsOlderThan options) \/
      (exists id, what = CallAttachSession id /\ sessionId = Some id))).
Proof.
  intros Hpath run. subst run.
  destruct (handleSessionCommand_outcomes sessionId command deps p)
    as [H | (what & Hcalls & Hexit & Herr & Hwhat)]; [by left|].
  right. exists what. repeat split; try assumption.
  destruct what as [options|id|options].
  - destruct Hwhat as [Hclear Hid]. rewrite Hclear, Hid in Hpath.
    destruct Hpath; discriminate.
  - right. exists id. by destruct Hwhat as (_ & -> & _).
  - left. by exists options.
Qed.

End SessionCommandPaths.

Section SessionCommandRuns.
Import SessionCommand SessionInputs.

Local Abbreviation handle := (@handleSessionCommand Z StatusOptions (fun o => o)).

Lemma positional_clear_is_rejected_witness :
  exitCode
    (@handleSessionCommand unit StatusOptions (fun o => o) (Some (js "clean"))
       plainOptions idleDependencies freshProcess).2
  = Some 1%Z.
Proof.
  rewrite (positional_clear_is_rejected (fun o => o) (js "clean") plainOptions
             idleDependencies freshProcess eq_refl (or_intror eq_refl)).
  reflexivity.
Defined.

Lemma no_session_id_lists_witness :
  exists options,
    calls (handle None listAllOptions countingDependencies oneSessionProcess).2
    = [CallShowStatus options] /\
    showHours options = Infinity.
Proof.
  destruct (no_session_id_lists (fun o => o) None listAllOptions
              countingDependencies oneSessionProcess eq_refl eq_refl)
    as (options & Hcalls & Hhours & _).
  exists options. split; [exact Hcalls|exact Hhours].
Defined.

Lemma session_id_attaches_witness :
  calls (handle (Some (js "abc123")) plainOptions failingDependencies
           oneSessionProcess).2
  = [CallAttachSession (js "abc123")] /\
  (handle (Some (js "abc123")) plainOptions failingDependencies oneSessionProcess).1
  = Throw (ThrownError (js "No session found")).
Proof.
  destruct (session_id_attaches (fun o => o) (js "abc123") plainOptions
              failingDependencies oneSessionProcess eq_refl
              ltac:(discriminate) ltac:(discriminate) ltac:(discriminate))
    as (Hcalls & Hrun & _).
  split; [exact Hcalls|exact (f_equal fst Hrun)].
Defined.

Lemma clear_reports_count_witness :
  handle None clearOptions countingDependencies oneSessionProcess
  = (Normal tt,
     {| world := 0%Z;
        consoleLog := [js "Deleted 1 session (sessions older than 24h)."];
        consoleError := [];
        exitCode := None;
        calls := [CallDeleteSessionsOlderThan
                    {| SessionManager.hours := 24;
                       SessionManager.includeAll := false |}] |}).
Proof.
  apply (clear_reports_count (fun o => o) None clearOptions countingDependencies
           oneSessionProcess 1%Z 0%Z eq_refl eq_refl);
    [unfold safeInteger, MAX_SAFE_INTEGER; simpl; lia..|reflexivity].
Defined.

Lemma handler_rejects_or_calls_once_witness :
  let run := handle (Some (js "abc123")) plainOptions failingDependencies
               oneSessionProcess in
  (run.1 = Normal tt /\ world run.2 = world oneSessionProcess /\
   calls run.2 = calls oneSessionProcess /\
   exitCode run.2 = Some 1%Z /\ consoleLog run.2 = consoleLog oneSessionProcess /\
   exists line, consoleError run.2 = consoleError oneSessionProcess ++ [line]) \/
  (exists what,
     calls run.2 = calls oneSessionProcess ++ [what] /\
     exitCode run.2 = exitCode oneSessionProcess /\
     consoleError run.2 = consoleError oneSessionProcess /\
     ((exists options, what = CallDeleteSessionsOlderThan options) \/
      (exists id, what = CallAttachSession id /\ Some (js "abc123") = Some id))).
Proof.
  apply (handler_rejects_or_calls_once (fun o => o) (Some (js "abc123"))
           plainOptions failingDependencies oneSessionProcess).
  left. reflexivity.
Defined.

Lemma clear_failure_propagates_witness :
  (handle None clearOptions failingDependencies oneSessionProcess).1
  = Throw (ThrownError (js "EACCES")) /\
  consoleLog (handle None clearOptions failingDependencies oneSessionProcess).2 = [].
Proof.
  destruct (clear_failure_propagates (fun o => o) None clearOptions
              failingDependencies oneSessionProcess
              (ThrownError (js "EACCES")) 1%Z eq_refl eq_refl eq_refl)
    as (Hrun & Hlog & _).
  split; [exact Hrun|exact Hlog].
Defined.

Lemma deletion_only_on_request_witness :
  isSet (clear clearOptions) || isSet (clean clearOptions) = true /\
  hasSessionId None = false /\
  {| SessionManager.hours := 24; SessionManager.includeAll := false |}
  = {| SessionManager.hours := hours clearOptions;
       SessionManager.includeAll := all clearOptions |}.
Proof.
  apply (deletion_only_on_request (fun o => o) None clearOptions
           countingDependencies oneSessionProcess).
  - intros [].
  - by left.
Defined.

End SessionCommandRuns.

(** ** The two tools *)

Section BrowserQueryPaths.
Import BrowserQueryTool BrowserInputs.

Lemma pushAttachments_map (env : Environment) (sizeOf : jsstring -> Z)
    (resolved : list jsstring) :
  (forall p, In p resolved -> stat env p = Normal (sizeOf p)) ->
  forall attached,
    pushAttachments env resolved attached
    = Normal (attached ++ map (attachmentOf env sizeOf) resolved).
Proof.
  induction resolved as [|p resolved IH]; intros Hstat attached; simpl.
  - by rewrite app_nil_r.
  - rewrite (Hstat p) by (by left). simpl. rewrite IH.
    + by rewrite <- app_assoc.
    + intros q Hq. apply Hstat. by right.
Qed.

Lemma orString_nonempty (a b : jsstring) : b <> [] -> orString a b <> [].
Proof. by destruct a. Qed.

(** X17. Whenever the [oracle.browserQuery] handler returns, its result has
    exactly one content item, a text, and the text is never empty. *)
Theorem browserQuery_text_never_empty
    (env : Environment) (input : Input) (r : ToolResult) :
  browserQuery env input = Normal r ->
  exists text, content r = [TextContent text] /\ text <> [].
Proof.
  unfold browserQuery.
  destruct (collectAttachments env (files input)) as [attached|]; [|discriminate].
  simpl. destruct (runBrowserMode env _) as [answer|]; [|discriminate].
  simpl. intros [= <-]. eexists. split; [reflexivity|].
  by apply orString_nonempty.
Qed.

(** X18. When [answerMarkdown] is missing or empty and [answerText] is not
    empty, the text of the result is [answerText]. *)
Theorem browserQuery_falls_back_to_answerText
    (env : Environment) (input : Input)
    (attached : list Attachment) (answer : BrowserRunResult) :
  collectAttachments env (files input) = Normal attached ->
  runBrowserMode env (runOptions input attached) = Normal answer ->
  orElse (answerMarkdown answer) [] = [] -> answerText answer <> [] ->
  browserQuery env input = Normal {| content := [TextContent (answerText answer)] |}.
Proof.
  intros Hfiles Hrun Hmd Htext. unfold browserQuery. rewrite Hfiles. simpl.
  rewrite Hrun. simpl.
  destruct (answerMarkdown answer) as [[|c md]|]; try discriminate;
    destruct (answerText answer); try contradiction; reflexivity.
Qed.

(** X19. The handler fails exactly when reading the attachments fails or,
    the attachments read, the browser query fails, and then with that
    error: nothing is caught, and no failure is turned into a result. *)
Theorem browserQuery_fails_with_its_dependencies
    (env : Environment) (input : Input) (e : Thrown) :
  browserQuery env input = Throw e <->
  collectAttachments env (files input) = Throw e \/
  exists attached,
    collectAttachments env (files input) = Normal attached /\
    runBrowserMode env (runOptions input attached) = Throw e.
Proof.
  unfold browserQuery.
  destruct (collectAttachments env (files input)) as [attached|e'] eqn:Hc; simpl.
  - destruct (runBrowserMode env (runOptions input attached)) as [answer|e''] eqn:Hr;
      simpl.
    + split; [discriminate|].
      intros [H | (a & [= <-] & H)]; [discriminate|congruence].
    + split.
      * intros [= <-]. right. eauto.
      * intros [H | (a & [= <-] & H)]; [discriminate|congruence].
  - split.
    + intros [= <-]. by left.
    + intros [[= <-] | (a & H & _)]; [reflexivity|discriminate].
Qed.

(** X20. When files are given, [readFiles] resolves them and every [stat]
    returns, there is one attachment per resolved file, in the order of
    [readFiles]: its path, its size, and for display the path relative to
    the working directory, or the path itself where that is empty. *)
Theorem attachments_follow_resolved_files
    (env : Environment) (sizeOf : jsstring -> Z)
    (names resolved : list jsstring) :
  names <> [] ->
  readFiles env names (cwd env) = Normal resolved ->
  (forall p, In p resolved -> stat env p = Normal (sizeOf p)) ->
  collectAttachments env (Some names)
  = Normal (map (attachmentOf env sizeOf) resolved).
Proof.
  intros Hnames Hread Hstat. unfold collectAttachments.
  destruct names as [|name names]; [contradiction|].
  rewrite Hread. simpl. by rewrite (pushAttachments_map env sizeOf).
Qed.

End BrowserQueryPaths.

Section BrowserQueryRuns.
Import BrowserQueryTool BrowserInputs.

Lemma browserQuery_text_never_empty_witness :
  exists text,
    content {| content := [TextContent (js "Done.")] |} = [TextContent text] /\
    text <> [].
Proof.
  apply (browserQuery_text_never_empty fileEnvironment fileInput).
  reflexivity.
Defined.

Lemma browserQuery_falls_back_to_answerText_witness :
  browserQuery fileEnvironment fileInput
  = Normal {| content := [TextContent (js "Done.")] |}.
Proof.
  apply (browserQuery_falls_back_to_answerText fileEnvironment fileInput
           [{| path := js "/work/notes.txt"; displayPath := js "notes.txt";
               sizeBytes := 12 |}]
           {| answerText := js "Done."; answerMarkdown := Some [] |}).
  - reflexivity.
  - reflexivity.
  - reflexivity.
  - discriminate.
Defined.

Lemma attachments_follow_resolved_files_witness :
  collectAttachments fileEnvironment (Some [js "notes.txt"])
  = Normal [{| path := js "/work/notes.txt"; displayPath := js "notes.txt";
               sizeBytes := 12 |}].
Proof.
  apply (attachments_follow_resolved_files fileEnvironment (fun _ => 12%Z)
           [js "notes.txt"] [js "/work/notes.txt"]).
  - discriminate.
  - reflexivity.
  - intros p _. reflexivity.
Defined.

End BrowserQueryRuns.

Section OracleQueryPaths.
Import OracleQueryTool.
Context {Response : Type}.

(** X21. Whenever the [oracle.query] handler returns, for a preview or for a
    response, its result has exactly one content item, a text, and the
    text is never empty. *)
Theorem oracleQuery_text_never_empty
    (env : @Environment Response) (input : Input)
    (r : BrowserQueryTool.ToolResult) :
  oracleQuery env input = Normal r ->
  exists text,
    BrowserQueryTool.content r = [BrowserQueryTool.TextContent text] /\ text <> [].
Proof.
  unfold oracleQuery.
  destruct (runOracle env (runOptions input) (cwd env)) as [[estimate budget|response]|];
    simpl; [| |discriminate].
  - intros [= <-]. eexists. split; [reflexivity|]. discriminate.
  - destruct (extractTextOutput env response) as [extracted|]; simpl; [|discriminate].
    intros [= <-]. eexists. split; [reflexivity|].
    by apply orString_nonempty.
Qed.

(** X22. The [oracle.query] handler fails exactly when [runOracle] fails or,
    for a response, [extractTextOutput] fails, and then with that error; a
    preview never fails. *)
Theorem oracleQuery_fails_with_its_dependencies
    (env : @Environment Response) (input : Input) (e : Thrown) :
  oracleQuery env input = Throw e <->
  runOracle env (runOptions input) (cwd env) = Throw e \/
  exists response,
    runOracle env (runOptions input) (cwd env) = Normal (LiveResult response) /\
    extractTextOutput env response = Throw e.
Proof.
  unfold oracleQuery.
  destruct (runOracle env (runOptions input) (cwd env))
    as [[estimate budget|response]|e'] eqn:Hrun; simpl.
  - split; [discriminate|]. intros [H | (x & H & _)]; discriminate.
  - destruct (extractTextOutput env response) as [extracted|e''] eqn:Hx; simpl.
    + split; [discriminate|].
      intros [H | (x & [= <-] & H)]; [discriminate|congruence].
    + split.
      * intros [= <-]. right. eauto.
      * intros [H | (x & [= <-] & H)]; [discriminate|congruence].
  - split.
    + intros [= <-]. by left.
    + intros [[= <-] | (x & H & _)]; [reflexivity|discriminate].
Qed.

End OracleQueryPaths.

Lemma oracleQuery_text_never_empty_witness :
  exists text,
    BrowserQueryTool.content
      {| BrowserQueryTool.content :=
           [BrowserQueryTool.TextContent (js "(no text output)")] |}
    = [BrowserQueryTool.TextContent text] /\ text <> [].
Proof.
  apply (oracleQuery_text_never_empty OracleQueryTool.silentEnvironment
           OracleQueryTool.summarizeInput).
  reflexivity.
Defined.

(** ** More on the selection loop and on the command line *)

Section SelectionEdges.
Import ProbeInputs.
Context {lower : CaseMapping}.

Lemma findBest_throw (dom : Dom) (before after : list Node) (node : Node)
    (e : Thrown) :
  LowerCaseKeepsPlain ->
  (forall c, In c before -> passedOver dom c) ->
  instanceofHTMLElement dom node = true ->
  haystackOf dom node = Throw e ->
  findBest dom (before ++ node :: after) = Throw e.
Proof.
  intros Hlower Hbefore Hhtml Hthrow.
  rewrite (findBest_skips Hlower) by exact Hbefore.
  simpl. by rewrite Hhtml, Hthrow.
Qed.

(** X23. One unreadable element stops the search: if reading the text or the
    two attributes of an [HTMLElement] candidate throws, and the loop has
    passed over every candidate before it, the script goes to its [catch]
    clause, whatever the candidates after it are: it returns [error] with
    the message that the clause extracts, or, where the extraction throws,
    it throws that.  Either way it clicks nothing. *)
Theorem unreadable_candidate_stops_the_search
    (dom : Dom) (before after : list Node) (node : Node) (e : Thrown) :
  LowerCaseKeepsPlain ->
  candidatesOf dom (before ++ node :: after) ->
  (forall c, In c before -> passedOver dom c) ->
  instanceofHTMLElement dom node = true ->
  haystackOf dom node = Throw e ->
  evaluateProbe dom = (caught e, []) /\
  (forall message, errorMessage e = Normal message ->
     evaluateProbe dom = (Normal (Error message), [])) /\
  (forall raised, errorMessage e = Throw raised ->
     evaluateProbe dom = (Throw raised, [])).
Proof.
  intros Hlower Hc Hbefore Hhtml Hthrow.
  assert (evaluateProbe dom = (caught e, [])) as Hrun.
  { rewrite evaluateProbe_steps, Hc.
    by rewrite (findBest_throw dom before after node e). }
  rewrite Hrun. unfold caught. split; [reflexivity|]. split; by intros ? ->.
Qed.

(** X24. The keyword [web search] never decides anything: a haystack passes
    the loop's test exactly when [search], [browse] or [browsing] occurs in
    it. *)
Theorem web_search_keyword_is_redundant (h : jsstring) :
  LowerCaseKeepsPlain ->
  (matchesKeywords h = true <->
   exists kw, In kw SHORT_KEYWORDS /\ substring kw h).
Proof.
  intros Hlower. rewrite (matchesKeywords_spec Hlower). split.
  - intros (kw & Hkw & Hsub). simpl in Hkw.
    destruct Hkw as [<- | [<- | [<- | [<- | []]]]].
    + exists (js "search"). split; [by left|exact Hsub].
    + exists (js "search"). split; [by left|].
      destruct Hsub as (before & after & ->).
      exists (before ++ js "web "), after. by rewrite <- app_assoc.
    + exists (js "browse"). split; [right; by left|exact Hsub].
    + exists (js "browsing"). split; [right; right; by left|exact Hsub].
  - intros (kw & Hkw & Hsub). exists kw. split; [|exact Hsub].
    simpl in Hkw. destruct Hkw as [<- | [<- | [<- | []]]]; simpl; tauto.
Qed.

End SelectionEdges.

Lemma unreadable_candidate_stops_the_search_witness :
  @evaluateProbe asciiLowerCase ProbeInputs.brokenElementDom
  = (Normal (Error (VString (js "Illegal invocation"))), []).
Proof.
  refine (proj1 (@unreadable_candidate_stops_the_search asciiLowerCase
                   ProbeInputs.brokenElementDom [] [1] 0
                   (ThrownError (js "Illegal invocation")) _ _ _ _ _)).
  - exact asciiLowerCase_keeps_plain.
  - reflexivity.
  - intros c [].
  - reflexivity.
  - reflexivity.
Defined.

Lemma web_search_keyword_is_redundant_witness :
  @matchesKeywords asciiLowerCase (js "open web search ") = true <->
  exists kw, In kw ProbeInputs.SHORT_KEYWORDS /\ substring kw (js "open web search ").
Proof.
  apply (@web_search_keyword_is_redundant asciiLowerCase).
  exact asciiLowerCase_keeps_plain.
Defined.

Section CommandLineEdges.
Import SessionCommand.
Context {World Command : Type}.

(** X25. An empty string as session id is no session id: the handler does
    with it what it does when the id is missing.  So with [--clear] and an
    empty id the command line is not rejected: the handler goes on to call
    [deleteSessionsOlderThan]. *)
Theorem empty_session_id_is_no_session_id
    (opts : Command -> StatusOptions) (command : Command)
    (deps : @SessionCommandDependencies World Command) (p : Process World) :
  handleSessionCommand opts (Some []) command deps p
  = handleSessionCommand opts None command deps p /\
  (isSet (clear (opts command)) || isSet (clean (opts command)) = true ->
   calls (handleSessionCommand opts (Some []) command deps p).2
   = calls p ++
     [CallDeleteSessionsOlderThan
        {| SessionManager.hours := hours (opts command);
           SessionManager.includeAll := all (opts command) |}]).
Proof.
  split; [reflexivity|]. intros Hclear.
  change (handleSessionCommand opts (Some []) command deps p)
    with (handleSessionCommand opts None command deps p).
  by apply clear_calls_delete.
Qed.

End CommandLineEdges.
